(** * Semantic-Highlighting: [rangesByName] (src/rangesByName.ts)

    A shallow embedding of the token-stream decoder of the extension and the
    properties of its classification into name-keyed range lists.

    Modelling conventions.
    - [data.data] is a [Uint32Array]: its elements are naturals, modelled in
      [N].  [line] and [column] are JavaScript numbers; sums of stream
      elements are exact as long as they stay below 2^53, and the model uses
      exact arithmetic.
    - A read past the end of the array is [undefined] ([None] below); adding
      [undefined] to a number is [NaN].
    - [Map] is the insertion-ordered JavaScript map: an association list with
      unique keys, [set] replacing in place or appending at the end.
    - A string is the sequence of its code units, and [name.length] their
      number ([String.length]).
    - [editor.document.getText] may throw; the function has no handler, so an
      exception ends the call: it is a value [Err e] that every later
      statement passes on. *)

From Stdlib Require Import NArith ZArith List String Bool Lia.
Import ListNotations.

#[local] Open Scope string_scope.
#[local] Open Scope list_scope.

(** ** JavaScript values *)

(** A JavaScript number that is either a natural or [NaN]. *)
Inductive num : Type :=
| Num (n : N)
| NaN.

(** [a + b] where [b] may be [undefined]. *)
Definition num_add (a : num) (b : option N) : num :=
  match a, b with
  | Num x, Some y => Num (x + y)
  | _, _ => NaN
  end.

(** [ToInt32] on an integer. *)
Definition toInt32 (z : Z) : Z := ((z + 2 ^ 31) mod 2 ^ 32 - 2 ^ 31)%Z.

(** [a << n] on 32-bit integers: the shift count is taken modulo 32. *)
Definition shl32 (a n : Z) : Z := toInt32 (Z.shiftl (toInt32 a) (n mod 32)).

(** [a & b] on 32-bit integers. *)
Definition and32 (a b : Z) : Z := Z.land (toInt32 a) (toInt32 b).

(** [(modifierIndex & (1 << index)) !== 0]; [undefined & x] is [0]. *)
Definition bitSet (modifierIndex : option N) (index : nat) : bool :=
  match modifierIndex with
  | Some m => negb (and32 (Z.of_N m) (shl32 1 (Z.of_nat index)) =? 0)%Z
  | None => false
  end.

(** [Array.prototype.includes] on an array of strings. *)
Definition includes (l : list string) (x : string) : bool :=
  existsb (String.eqb x) l.

(** [Array.prototype.filter] with the callback looking at the index only. *)
Fixpoint filterIndex {A : Type} (p : nat -> bool) (i : nat) (l : list A) : list A :=
  match l with
  | [] => []
  | x :: l' => if p i then x :: filterIndex p (S i) l' else filterIndex p (S i) l'
  end.

(** Results of code that may throw. *)
Inductive result (E A : Type) : Type :=
| Ok (a : A)
| Err (e : E).
Arguments Ok {E A} a.
Arguments Err {E A} e.

Definition bind {E A B : Type} (r : result E A) (k : A -> result E B) : result E B :=
  match r with
  | Ok a => k a
  | Err e => Err e
  end.

Notation "'let*' x ':=' r 'in' k" := (bind r (fun x => k))
  (at level 10, x name, r at level 100, k at level 200).

(** ** The JavaScript [Map] with string keys *)

Module JsMap.

Definition t (V : Type) : Type := list (string * V).

Definition empty {V : Type} : t V := [].

Fixpoint get {V : Type} (k : string) (m : t V) : option V :=
  match m with
  | [] => None
  | (k', v) :: m' => if String.eqb k k' then Some v else get k m'
  end.

Definition has {V : Type} (k : string) (m : t V) : bool :=
  match get k m with
  | Some _ => true
  | None => false
  end.

Fixpoint set {V : Type} (k : string) (v : V) (m : t V) : t V :=
  match m with
  | [] => [(k, v)]
  | (k', v') :: m' =>
      if String.eqb k k' then (k', v) :: m' else (k', v') :: set k v m'
  end.

Fixpoint delete {V : Type} (k : string) (m : t V) : t V :=
  match m with
  | [] => []
  | (k', v') :: m' =>
      if String.eqb k k' then m' else (k', v') :: delete k m'
  end.

Definition keys {V : Type} (m : t V) : list string := map fst m.

End JsMap.

(** ** vscode values *)

(** The four arguments of [new vscode.Range(...)]. *)
Record Range : Type := mkRange {
  startLine : N;
  startCharacter : num;
  endLine : N;
  endCharacter : num
}.

Record SemanticTokensLegend : Type := mkLegend {
  tokenTypes : list string;
  tokenModifiers : list string
}.

(** The part of [vscode.TextEditor] the function reads. *)
Record TextEditor (E : Type) : Type := mkEditor {
  getText : Range -> result E string;
  languageId : string
}.
Arguments mkEditor {E} getText languageId.
Arguments getText {E} _ _.
Arguments languageId {E} _.

(** ** [rangesByName] *)

(** What one iteration knows of its token once lines 74-81 have run. *)
Record Token : Type := mkToken {
  tRange : Range;
  tName : string;
  tKind : option string;
  tModifiers : list string
}.

(** The three accumulators. *)
Record Accumulators : Type := mkAcc {
  accumulatorParam : JsMap.t (list Range);
  accumulatorVar : JsMap.t (list Range);
  accumulatorWithDec : JsMap.t bool
}.

Definition emptyAcc : Accumulators := mkAcc JsMap.empty JsMap.empty JsMap.empty.

(** [kind === s], where [kind] is [undefined] for an index outside the legend. *)
Definition kindIs (kind : option string) (s : string) : bool :=
  match kind with
  | Some k => String.eqb k s
  | None => false
  end.

(** [if (m.has(name)) m.get(name)!.push(range) else m.set(name, [range])]. *)
Definition pushRange (name : string) (range : Range) (m : JsMap.t (list Range))
  : JsMap.t (list Range) :=
  match JsMap.get name m with
  | Some rs => JsMap.set name (rs ++ [range]) m
  | None => JsMap.set name [range] m
  end.

(** Lines 94-99: the entry of [accumulatorWithDec]. *)
Definition markDeclared (name : string) (modifiers : list string) (d : JsMap.t bool)
  : JsMap.t bool :=
  let d1 := if negb (JsMap.has name d) then JsMap.set name false d else d in
  if includes modifiers "declaration" then JsMap.set name true d1 else d1.

(** The condition of line 82. *)
Definition inclusion (highlightGlobals : bool) (tok : Token) : bool :=
  highlightGlobals
  || (negb (includes (tModifiers tok) "global") && (2 <? String.length (tName tok))%nat).

(** Lines 82-107. *)
Definition classifyPrimary (highlightGlobals : bool) (tok : Token) (a : Accumulators)
  : Accumulators :=
  if inclusion highlightGlobals tok then
    if kindIs (tKind tok) "variable" then
      mkAcc (accumulatorParam a)
            (pushRange (tName tok) (tRange tok) (accumulatorVar a))
            (accumulatorWithDec a)
    else if kindIs (tKind tok) "parameter" && negb (includes (tModifiers tok) "label") then
      let d := markDeclared (tName tok) (tModifiers tok) (accumulatorWithDec a) in
      mkAcc (pushRange (tName tok) (tRange tok) (accumulatorParam a))
            (accumulatorVar a)
            d
    else a
  else a.

(** Lines 109-115. *)
Definition classifyClass (highlightClasses : bool) (tok : Token) (a : Accumulators)
  : Accumulators :=
  if highlightClasses && kindIs (tKind tok) "class" then
    mkAcc (accumulatorParam a)
          (pushRange (tName tok) (tRange tok) (accumulatorVar a))
          (accumulatorWithDec a)
  else a.

(** Lines 82-115. *)
Definition classify (highlightGlobals highlightClasses : bool) (tok : Token)
  (a : Accumulators) : Accumulators :=
  classifyClass highlightClasses tok (classifyPrimary highlightGlobals tok a).

(** Lines 75-78: the position of the token and its range. *)
Definition decodeRange (line : N) (column : num) (deltaLine : N)
  (deltaColumn length : option N) : N * num * Range :=
  let column0 := if (deltaLine =? 0)%N then column else Num 0 in
  let line1 := (line + deltaLine)%N in
  let column1 := num_add column0 deltaColumn in
  (line1, column1, mkRange line1 column1 line1 (num_add column1 length)).

(** Line 80: [legend.tokenTypes[kindIndex]]. *)
Definition kindOf (legend : SemanticTokensLegend) (kindIndex : option N) : option string :=
  match kindIndex with
  | Some k => nth_error (tokenTypes legend) (N.to_nat k)
  | None => None
  end.

(** Line 81. *)
Definition modifiersOf (legend : SemanticTokensLegend) (modifierIndex : option N)
  : list string :=
  filterIndex (bitSet modifierIndex) 0 (tokenModifiers legend).

(** The state of the loop. *)
Record LoopState : Type := mkState {
  line : N;
  column : num;
  acc : Accumulators
}.

Definition initState : LoopState := mkState 0 (Num 0) emptyAcc.

Section RangesByName.

Variable E : Type.
Variable legend : SemanticTokensLegend.
Variable editor : TextEditor E.
Variables highlightGlobals highlightClasses : bool.

(** One iteration of the loop of line 73, on the slice of line 74. *)
Definition loopBody (deltaLine : N) (deltaColumn length kindIndex modifierIndex : option N)
  (st : LoopState) : result E LoopState :=
  let '(line1, column1, range) :=
    decodeRange (line st) (column st) deltaLine deltaColumn length in
  let* name := getText editor range in
  let tok := mkToken range name (kindOf legend kindIndex) (modifiersOf legend modifierIndex) in
  Ok (mkState line1 column1 (classify highlightGlobals highlightClasses tok (acc st))).

(** The loop of lines 73-116 over what is left of [data.data]. *)
Fixpoint loop (data : list N) (st : LoopState) : result E LoopState :=
  match data with
  | [] => Ok st
  | [d0] => loopBody d0 None None None None st
  | [d0; d1] => loopBody d0 (Some d1) None None None st
  | [d0; d1; d2] => loopBody d0 (Some d1) (Some d2) None None st
  | [d0; d1; d2; d3] => loopBody d0 (Some d1) (Some d2) (Some d3) None st
  | d0 :: d1 :: d2 :: d3 :: d4 :: rest =>
      let* st' := loopBody d0 (Some d1) (Some d2) (Some d3) (Some d4) st in
      loop rest st'
  end.

(** Lines 120-124. *)
Definition forceDeclared (d : JsMap.t bool) : JsMap.t bool :=
  fold_left (fun m entry => JsMap.set (fst entry) true m) d d.

(** [accumulatorParam.get(name)!]; the key is always there (lemma
    [reconcile_get_defined]), the default stands for [undefined]. *)
Definition getParam (name : string) (p : JsMap.t (list Range)) : list Range :=
  match JsMap.get name p with
  | Some rs => rs
  | None => []
  end.

(** Lines 126-136, for one entry of [accumulatorWithDec]. *)
Definition reconcileEntry (pv : JsMap.t (list Range) * JsMap.t (list Range))
  (entry : string * bool) : JsMap.t (list Range) * JsMap.t (list Range) :=
  let '(p, v) := pv in
  let '(name, isDeclared) := entry in
  if negb isDeclared then (JsMap.delete name p, v)
  else
    match JsMap.get name v with
    | Some vs => (p, JsMap.set name (vs ++ getParam name p) v)
    | None => (p, JsMap.set name (getParam name p) v)
    end.

(** Lines 120-138. *)
Definition finalize (a : Accumulators) : JsMap.t (list Range) :=
  let d := if String.eqb (languageId editor) "cpp"
           then forceDeclared (accumulatorWithDec a)
           else accumulatorWithDec a in
  snd (fold_left reconcileEntry d (accumulatorParam a, accumulatorVar a)).

Definition rangesByName (data : list N) : result E (JsMap.t (list Range)) :=
  let* st := loop data initState in
  Ok (finalize (acc st)).

End RangesByName.

(** ** The stream as records, and the tokens of a run *)

(** The slices [data.data.slice(i, i + 5)] for [i = 0, 5, 10, ...]: the first
    element of a slice is always there, the others are [undefined] in a last
    slice that is too short. *)
Definition Record5 : Type := (N * option N * option N * option N * option N)%type.

Fixpoint records (data : list N) : list Record5 :=
  match data with
  | [] => []
  | [d0] => [(d0, None, None, None, None)]
  | [d0; d1] => [(d0, Some d1, None, None, None)]
  | [d0; d1; d2] => [(d0, Some d1, Some d2, None, None)]
  | [d0; d1; d2; d3] => [(d0, Some d1, Some d2, Some d3, None)]
  | d0 :: d1 :: d2 :: d3 :: d4 :: rest =>
      (d0, Some d1, Some d2, Some d3, Some d4) :: records rest
  end.

(** The ranges built by the successive iterations, whatever [getText] does. *)
Fixpoint rangesFrom (line : N) (column : num) (rs : list Record5) : list Range :=
  match rs with
  | [] => []
  | (deltaLine, deltaColumn, length, _, _) :: rs' =>
      let '(line1, column1, range) := decodeRange line column deltaLine deltaColumn length in
      range :: rangesFrom line1 column1 rs'
  end.

Definition rangesOf (data : list N) : list Range := rangesFrom 0 (Num 0) (records data).

Section Tokens.

Variable E : Type.
Variable legend : SemanticTokensLegend.
Variable editor : TextEditor E.

(** The tokens of the successive iterations; the first [getText] that
    throws ends the run. *)
Fixpoint tokensFrom (line : N) (column : num) (rs : list Record5) : result E (list Token) :=
  match rs with
  | [] => Ok []
  | (deltaLine, deltaColumn, length, kindIndex, modifierIndex) :: rs' =>
      let '(line1, column1, range) := decodeRange line column deltaLine deltaColumn length in
      let* name := getText editor range in
      let* toks := tokensFrom line1 column1 rs' in
      Ok (mkToken range name (kindOf legend kindIndex) (modifiersOf legend modifierIndex)
            :: toks)
  end.

Definition tokensOf (data : list N) : result E (list Token) :=
  tokensFrom 0 (Num 0) (records data).

End Tokens.

(** The accumulators after the iterations on [toks]. *)
Definition classifyAll (highlightGlobals highlightClasses : bool) (toks : list Token)
  (a : Accumulators) : Accumulators :=
  fold_left (fun a' tok => classify highlightGlobals highlightClasses tok a') toks a.

(** ** Which tokens go where *)

(** The token's range is pushed on [accumulatorVar]. *)
Definition isVarTok (highlightGlobals highlightClasses : bool) (tok : Token) : bool :=
  (inclusion highlightGlobals tok && kindIs (tKind tok) "variable")
  || (highlightClasses && kindIs (tKind tok) "class").

(** The token's range is pushed on [accumulatorParam]. *)
Definition isParamTok (highlightGlobals : bool) (tok : Token) : bool :=
  inclusion highlightGlobals tok
  && kindIs (tKind tok) "parameter"
  && negb (includes (tModifiers tok) "label").

Definition named (name : string) (tok : Token) : bool := String.eqb (tName tok) name.

(** The ranges classified as variable for [name], in stream order. *)
Definition varRanges (highlightGlobals highlightClasses : bool) (name : string)
  (toks : list Token) : list Range :=
  map tRange
    (filter (fun tok => isVarTok highlightGlobals highlightClasses tok && named name tok) toks).

(** The ranges classified as parameter for [name], in stream order. *)
Definition paramRanges (highlightGlobals : bool) (name : string) (toks : list Token)
  : list Range :=
  map tRange (filter (fun tok => isParamTok highlightGlobals tok && named name tok) toks).

(** Some parameter-classified occurrence of [name] carries "declaration". *)
Definition declaredIn (highlightGlobals : bool) (name : string) (toks : list Token) : bool :=
  existsb (fun tok => isParamTok highlightGlobals tok && named name tok
                      && includes (tModifiers tok) "declaration") toks.

(** The entry of [name] in the result of [rangesByName], read off the tokens:
    the variable ranges, followed by the parameter ranges when the name is
    kept as a parameter. *)
Definition nonEmpty (rs : list Range) : option (list Range) :=
  match rs with
  | [] => None
  | _ :: _ => Some rs
  end.

Definition expectedAt (highlightGlobals highlightClasses : bool) (languageId : string)
  (name : string) (toks : list Token) : option (list Range) :=
  let vs := varRanges highlightGlobals highlightClasses name toks in
  let ps := paramRanges highlightGlobals name toks in
  match ps with
  | [] => nonEmpty vs
  | _ :: _ =>
      if String.eqb languageId "cpp" || declaredIn highlightGlobals name toks
      then Some (vs ++ ps)
      else nonEmpty vs
  end.

(** ** Auxiliary definitions of the proofs *)

(** An entry of range lists with [rs] pushed at its end. *)
Definition extend (o : option (list Range)) (rs : list Range) : option (list Range) :=
  match rs with
  | [] => o
  | _ :: _ => Some (match o with Some old => old | None => [] end ++ rs)
  end.

(** An entry of [accumulatorWithDec] after the parameter tokens with the
    given "declaration" flags. *)
Definition extendDec (o : option bool) (decls : list bool) : option bool :=
  match decls with
  | [] => o
  | _ :: _ => Some (existsb (fun b => b) decls || match o with Some b => b | None => false end)
  end.

(** The "declaration" flags of the parameter tokens of [name]. *)
Definition declFlags (highlightGlobals : bool) (name : string) (toks : list Token)
  : list bool :=
  map (fun tok => includes (tModifiers tok) "declaration")
    (filter (fun tok => isParamTok highlightGlobals tok && named name tok) toks).

(** The accumulators when the loop of line 125 reaches an entry. *)
Definition reconcileUpTo (d1 : JsMap.t bool) (a : Accumulators)
  : JsMap.t (list Range) * JsMap.t (list Range) :=
  fold_left reconcileEntry d1 (accumulatorParam a, accumulatorVar a).

(** ** Concrete streams *)

(** The stream of the comment that heads the source file, and its legend. *)
Definition exampleStream : list N := [2; 5; 3; 0; 3;  0; 5; 4; 1; 0;  3; 2; 7; 2; 0]%N.

Definition exampleLegend : SemanticTokensLegend :=
  mkLegend ["property"; "type"; "class"] ["private"; "static"].

Definition exampleRange1 : Range := mkRange 2 (Num 5) 2 (Num 8).
Definition exampleRange2 : Range := mkRange 2 (Num 10) 2 (Num 14).
Definition exampleRange3 : Range := mkRange 5 (Num 2) 5 (Num 9).

(** An editor whose document always answers, with the text [text]. *)
Definition totalEditor (text : Range -> string) (languageId : string) : TextEditor unit :=
  mkEditor (fun range => Ok (text range)) languageId.

(** A legend with the kinds and the modifiers the function looks at. *)
Definition fullLegend : SemanticTokensLegend :=
  mkLegend ["variable"; "parameter"; "class"] ["global"; "declaration"; "label"].

(** A document whose lines all start with [ab xyz]: columns 0-2 hold [ab],
    columns 3-6 hold [xyz]. *)
Definition sampleText (range : Range) : string :=
  match startCharacter range with
  | Num 0 => "ab"
  | _ => "xyz"
  end.

(** The error of a document that can no longer be read. *)
Inductive TextError : Type := SourceUnavailable.

(** A document of which only line 0 can be read. *)
Definition closingEditor : TextEditor TextError :=
  mkEditor (fun range => match startLine range with
                         | 0%N => Ok (sampleText range)
                         | _ => Err SourceUnavailable
                         end)
           "python".

(** ** The invariant of the accumulators *)

(** Every key of [accumulatorParam] is a key of [accumulatorWithDec]. *)
Definition paramKeysDeclared (a : Accumulators) : Prop :=
  forall n, JsMap.has n (accumulatorParam a) = true ->
            JsMap.has n (accumulatorWithDec a) = true.

(** ** The documented encoding *)







(** ** The order of the keys *)

(** The distinct names of a list, in the order of their first occurrence. *)
Fixpoint firstOccurrences (names : list string) : list string :=
  match names with
  | [] => []
  | x :: names' => x :: filter (fun y => negb (String.eqb x y)) (firstOccurrences names')
  end.

(** [name] is among [names]. *)
Definition among (names : list string) (name : string) : bool :=
  existsb (String.eqb name) names.

(** The names of the tokens pushed on [accumulatorVar], and on
    [accumulatorParam], in stream order. *)
Definition varNames (highlightGlobals highlightClasses : bool) (toks : list Token)
  : list string :=
  map tName (filter (isVarTok highlightGlobals highlightClasses) toks).

Definition paramNames (highlightGlobals : bool) (toks : list Token) : list string :=
  map tName (filter (isParamTok highlightGlobals) toks).

(** The keys of the returned map in iteration order, read off the tokens. *)
Definition expectedKeys (highlightGlobals highlightClasses : bool) (languageId : string)
  (toks : list Token) : list string :=
  let vars := firstOccurrences (varNames highlightGlobals highlightClasses toks) in
  vars
  ++ filter (fun n => (String.eqb languageId "cpp" || declaredIn highlightGlobals n toks)
                      && negb (among vars n))
       (firstOccurrences (paramNames highlightGlobals toks)).

(** The keys of a map once [name] has been set in it. *)
Definition addKey (name : string) (keys : list string) : list string :=
  if among keys name then keys else keys ++ [name].

(** The entry of [accumulatorWithDec] says declared. *)
Definition saysDeclared (o : option bool) : bool :=
  match o with
  | Some true => true
  | _ => false
  end.

(** An editor with the document of [editor] and another language. *)
Definition withLanguage {E : Type} (editor : TextEditor E) (languageId : string)
  : TextEditor E :=
  mkEditor (getText editor) languageId.

(** * Facts on the model *)

(** ** Lists taken five elements at a time *)

Lemma list_ind5 (A : Type) (P : list A -> Prop) :
  P [] ->
  (forall a, P [a]) ->
  (forall a b, P [a; b]) ->
  (forall a b c, P [a; b; c]) ->
  (forall a b c d, P [a; b; c; d]) ->
  (forall a b c d e l, P l -> P (a :: b :: c :: d :: e :: l)) ->
  forall l, P l.
Proof.
  intros H0 H1 H2 H3 H4 H5 l.
  assert (H : P l /\ (forall a, P (a :: l)) /\ (forall a b, P (a :: b :: l))
              /\ (forall a b c, P (a :: b :: c :: l))
              /\ (forall a b c d, P (a :: b :: c :: d :: l))).
  { induction l as [|x l IH].
    - repeat split; auto.
    - destruct IH as (I0 & I1 & I2 & I3 & I4).
      repeat split; intros; auto. }
  apply H.
Qed.

(** ** The bit test of line 81 *)

Section Bits.

#[local] Open Scope Z_scope.

Lemma toInt32_mod z : toInt32 z mod 2 ^ 32 = z mod 2 ^ 32.
Proof.
  unfold toInt32. rewrite Zminus_mod_idemp_l. f_equal. lia.
Qed.

Lemma toInt32_range z : - 2 ^ 31 <= toInt32 z < 2 ^ 31.
Proof.
  unfold toInt32. pose proof (Z.mod_pos_bound (z + 2 ^ 31) (2 ^ 32) ltac:(lia)). lia.
Qed.

Lemma toInt32_small z : - 2 ^ 31 <= z < 2 ^ 31 -> toInt32 z = z.
Proof.
  intros H. unfold toInt32. rewrite Z.mod_small; lia.
Qed.

Lemma testbit_toInt32_low z j : 0 <= j < 32 -> Z.testbit (toInt32 z) j = Z.testbit z j.
Proof.
  intros Hj.
  rewrite <- (Z.mod_pow2_bits_low (toInt32 z) 32 j) by lia.
  rewrite toInt32_mod. apply Z.mod_pow2_bits_low. lia.
Qed.

Lemma testbit_int32_high x j : - 2 ^ 31 <= x < 2 ^ 31 -> 31 <= j -> Z.testbit x j = (x <? 0).
Proof.
  intros Hx Hj.
  assert (Hp : 2 ^ 31 <= 2 ^ j) by (apply Z.pow_le_mono_r; lia).
  destruct (Z.ltb_spec x 0).
  - apply Z.bits_above_log2_neg; [lia |].
    destruct (Z.eq_dec x (-1)) as [-> | Hne]; [simpl; lia |].
    apply Z.log2_lt_pow2; lia.
  - destruct (Z.eq_dec x 0) as [-> | Hne]; [apply Z.bits_0 |].
    apply Z.bits_above_log2; [lia |]. apply Z.log2_lt_pow2; lia.
Qed.

Lemma land_pow2_nonzero x k : 0 <= k -> (Z.land x (2 ^ k) =? 0) = negb (Z.testbit x k).
Proof.
  intros Hk. destruct (Z.testbit x k) eqn:Hb; cbn [negb].
  - apply Z.eqb_neq. intros H0.
    assert (Hk' : Z.testbit (Z.land x (2 ^ k)) k = true).
    { rewrite Z.land_spec, Hb, Z.pow2_bits_true; auto. }
    rewrite H0, Z.bits_0 in Hk'. discriminate.
  - apply Z.eqb_eq. apply Z.bits_inj'. intros j Hj.
    rewrite Z.land_spec, Z.bits_0, Z.pow2_bits_eqb by lia.
    destruct (Z.eqb_spec k j); [subst; now rewrite Hb | apply andb_false_r].
Qed.

Lemma land_min_nonzero x : - 2 ^ 31 <= x < 2 ^ 31 ->
  (Z.land x (- 2 ^ 31) =? 0) = negb (Z.testbit x 31).
Proof.
  intros Hx.
  assert (Hm : forall j, 0 <= j -> Z.testbit (- 2 ^ 31) j = (31 <=? j)).
  { intros j Hj. replace (- 2 ^ 31) with (Z.shiftl (-1) 31) by reflexivity.
    destruct (Z.leb_spec 31 j).
    - rewrite Z.shiftl_spec by lia. apply Z.bits_m1. lia.
    - apply Z.shiftl_spec_low. lia. }
  destruct (Z.testbit x 31) eqn:Hb; cbn [negb].
  - apply Z.eqb_neq. intros H0.
    assert (Hk' : Z.testbit (Z.land x (- 2 ^ 31)) 31 = true).
    { rewrite Z.land_spec, Hb, Hm by lia. reflexivity. }
    rewrite H0, Z.bits_0 in Hk'. discriminate.
  - apply Z.eqb_eq. apply Z.bits_inj'. intros j Hj.
    rewrite Z.land_spec, Z.bits_0, Hm by lia.
    destruct (Z.leb_spec 31 j); [| apply andb_false_r].
    rewrite (testbit_int32_high x j Hx) by lia.
    rewrite (testbit_int32_high x 31 Hx) in Hb by lia. now rewrite Hb.
Qed.

Lemma bitSet_testbit (m : N) (i : nat) :
  bitSet (Some m) i = N.testbit (m mod 2 ^ 32) (N.of_nat (i mod 32)).
Proof.
  unfold bitSet, and32, shl32.
  assert (Hi : (i mod 32 < 32)%nat) by (apply Nat.mod_upper_bound; discriminate).
  assert (Hz : Z.of_nat i mod 32 = Z.of_nat (i mod 32)).
  { rewrite Nat2Z.inj_mod. reflexivity. }
  rewrite Hz. set (k := (i mod 32)%nat) in *. clearbody k.
  rewrite (toInt32_small 1) by lia. rewrite Z.shiftl_1_l.
  assert (Hbit : Z.testbit (toInt32 (Z.of_N m)) (Z.of_nat k)
                 = N.testbit (m mod 2 ^ 32) (N.of_nat k)).
  { rewrite testbit_toInt32_low by lia.
    rewrite N.mod_pow2_bits_low by lia.
    rewrite <- (nat_N_Z k). apply Z.testbit_of_N. }
  rewrite <- Hbit.
  destruct (Nat.eq_dec k 31) as [-> | Hk].
  - change (toInt32 (toInt32 (2 ^ Z.of_nat 31))) with (- 2 ^ 31).
    rewrite land_min_nonzero by apply toInt32_range. now rewrite negb_involutive.
  - assert (Hs : toInt32 (2 ^ Z.of_nat k) = 2 ^ Z.of_nat k).
    { apply toInt32_small.
      split; [pose proof (Z.pow_nonneg 2 (Z.of_nat k)); lia |].
      apply Z.pow_lt_mono_r; lia. }
    rewrite !Hs, land_pow2_nonzero by lia. now rewrite negb_involutive.
Qed.

(** The modifiers of a token are the names whose index, modulo 32, is a set
    bit of the low 32 bits of [modifierIndex]. *)
Lemma modifiersOf_testbit (legend : SemanticTokensLegend) (m : N) :
  modifiersOf legend (Some m)
  = filterIndex (fun i => N.testbit (m mod 2 ^ 32) (N.of_nat (i mod 32))) 0%nat
      (tokenModifiers legend).
Proof.
  unfold modifiersOf.
  assert (H : forall (l : list string) (i : nat),
             filterIndex (bitSet (Some m)) i l
             = filterIndex (fun j => N.testbit (m mod 2 ^ 32) (N.of_nat (j mod 32))) i l).
  { induction l as [|x l IH]; intros i; [reflexivity |].
    cbn [filterIndex]. rewrite bitSet_testbit, IH. reflexivity. }
  apply H.
Qed.

End Bits.

(** ** The map *)

Section JsMapFacts.

Context {V : Type}.
Implicit Types (m : JsMap.t V) (k : string) (v : V).

Lemma get_set_same k v m : JsMap.get k (JsMap.set k v m) = Some v.
Proof.
  induction m as [|[k' v'] m IH]; simpl.
  - now rewrite String.eqb_refl.
  - destruct (String.eqb k k') eqn:Hk; simpl; rewrite Hk; auto.
Qed.

Lemma get_set_other k k' v m :
  k <> k' -> JsMap.get k' (JsMap.set k v m) = JsMap.get k' m.
Proof.
  intros Hne. induction m as [|[k0 v0] m IH]; simpl.
  - destruct (String.eqb k' k) eqn:Hk; auto.
    apply String.eqb_eq in Hk. congruence.
  - destruct (String.eqb k k0) eqn:Hk; simpl.
    + apply String.eqb_eq in Hk. subst k0.
      destruct (String.eqb k' k) eqn:Hk'; auto.
      apply String.eqb_eq in Hk'. congruence.
    + now rewrite IH.
Qed.

Lemma get_delete_other k k' m :
  k <> k' -> JsMap.get k' (JsMap.delete k m) = JsMap.get k' m.
Proof.
  intros Hne. induction m as [|[k0 v0] m IH]; simpl; auto.
  destruct (String.eqb k k0) eqn:Hk; simpl.
  - apply String.eqb_eq in Hk. subst k0.
    destruct (String.eqb k' k) eqn:Hk'; auto.
    apply String.eqb_eq in Hk'. congruence.
  - now rewrite IH.
Qed.

Lemma get_None_keys k m : JsMap.get k m = None <-> ~ In k (JsMap.keys m).
Proof.
  induction m as [|[k0 v0] m IH]; simpl.
  - tauto.
  - destruct (String.eqb k k0) eqn:Hk.
    + apply String.eqb_eq in Hk. subst. split; [discriminate | tauto].
    + apply String.eqb_neq in Hk. rewrite IH. split.
      * intros Hn [Heq | Hin]; [congruence | tauto].
      * tauto.
Qed.

Lemma has_true_keys k m : JsMap.has k m = true <-> In k (JsMap.keys m).
Proof.
  unfold JsMap.has. destruct (JsMap.get k m) eqn:Hg.
  - split; auto. intros _.
    destruct (in_dec string_dec k (JsMap.keys m)) as [Hin | Hn]; auto.
    apply get_None_keys in Hn. congruence.
  - split; [discriminate |]. intros Hin. apply get_None_keys in Hg. tauto.
Qed.

Lemma keys_set k v m :
  JsMap.keys (JsMap.set k v m)
  = if JsMap.has k m then JsMap.keys m else JsMap.keys m ++ [k].
Proof.
  unfold JsMap.has. induction m as [|[k0 v0] m IH]; simpl; auto.
  destruct (String.eqb k k0) eqn:Hk; simpl; auto.
  rewrite IH. now destruct (JsMap.get k m).
Qed.

Lemma NoDup_keys_set k v m :
  NoDup (JsMap.keys m) -> NoDup (JsMap.keys (JsMap.set k v m)).
Proof.
  intros Hnd. rewrite keys_set. destruct (JsMap.has k m) eqn:Hh; auto.
  assert (Hn : ~ In k (JsMap.keys m)).
  { intros Hin. apply has_true_keys in Hin. congruence. }
  clear Hh. induction (JsMap.keys m) as [|x l IH]; simpl.
  - constructor; [tauto | constructor].
  - inversion Hnd; subst. constructor.
    + rewrite in_app_iff. simpl. intros [Hin | [Heq | []]]; [tauto |].
      apply Hn. now left.
    + apply IH; auto. intros Hin. apply Hn. now right.
Qed.

Lemma has_set k k' v m :
  JsMap.has k' (JsMap.set k v m) = String.eqb k k' || JsMap.has k' m.
Proof.
  unfold JsMap.has. destruct (String.eqb k k') eqn:Hk.
  - apply String.eqb_eq in Hk. subst. now rewrite get_set_same.
  - apply String.eqb_neq in Hk. now rewrite get_set_other.
Qed.

Lemma has_delete_le k k' m :
  JsMap.has k' (JsMap.delete k m) = true -> JsMap.has k' m = true.
Proof.
  rewrite !has_true_keys.
  induction m as [|[k0 v0] m IH]; simpl; auto.
  destruct (String.eqb k k0); simpl; tauto.
Qed.

End JsMapFacts.

(** ** The loop runs [classify] over the tokens *)

Section LoopFacts.

Variable E : Type.
Variable legend : SemanticTokensLegend.
Variable editor : TextEditor E.
Variables highlightGlobals highlightClasses : bool.

Lemma loop_tokensFrom (data : list N) :
  forall st,
    (let* st' := loop E legend editor highlightGlobals highlightClasses data st in
     Ok (acc st'))
    = (let* toks := tokensFrom E legend editor (line st) (column st) (records data) in
       Ok (classifyAll highlightGlobals highlightClasses toks (acc st))).
Proof.
  induction data as [| a | a b | a b c | a b c d | a b c d e rest IH] using list_ind5;
    intros st; try reflexivity.
  1-4: cbn -[decodeRange classify]; unfold loopBody, decodeRange;
       match goal with |- context [getText editor ?r] => destruct (getText editor r) end;
       reflexivity.
  change (loop E legend editor highlightGlobals highlightClasses
            (a :: b :: c :: d :: e :: rest) st)
    with (let* st' := loopBody E legend editor highlightGlobals highlightClasses
                        a (Some b) (Some c) (Some d) (Some e) st in
          loop E legend editor highlightGlobals highlightClasses rest st').
  cbn [records tokensFrom]. unfold loopBody, decodeRange.
  match goal with |- context [getText editor ?r] => destruct (getText editor r) as [name | err] end;
    [| reflexivity].
  cbn [bind]. rewrite IH. cbn [line column acc].
  match goal with |- context [tokensFrom E legend editor ?l ?c ?rs] =>
    destruct (tokensFrom E legend editor l c rs) end; reflexivity.
Qed.

Lemma rangesByName_tokens (data : list N) :
  rangesByName E legend editor highlightGlobals highlightClasses data
  = (let* toks := tokensOf E legend editor data in
     Ok (finalize E editor (classifyAll highlightGlobals highlightClasses toks emptyAcc))).
Proof.
  unfold rangesByName, tokensOf.
  pose proof (loop_tokensFrom data initState) as H. cbn [line column acc initState] in H.
  destruct (loop E legend editor highlightGlobals highlightClasses data initState);
    destruct (tokensFrom E legend editor 0 (Num 0) (records data));
    cbn [bind] in *; congruence.
Qed.

End LoopFacts.

(** ** What one token adds to each accumulator *)

Lemma extend_app o rs1 rs2 : extend (extend o rs1) rs2 = extend o (rs1 ++ rs2).
Proof.
  destruct rs1 as [|r1 rs1]; [reflexivity |].
  destruct rs2 as [|r2 rs2]; simpl.
  - now rewrite app_nil_r.
  - now rewrite <- app_assoc.
Qed.

Lemma extendDec_app o l1 l2 : extendDec (extendDec o l1) l2 = extendDec o (l1 ++ l2).
Proof.
  destruct l1 as [|b1 l1]; [reflexivity |].
  destruct l2 as [|b2 l2].
  - now rewrite app_nil_r.
  - cbn [extendDec app]. f_equal.
    change (b1 :: l1 ++ b2 :: l2) with ((b1 :: l1) ++ b2 :: l2).
    rewrite existsb_app. destruct o as [[|]|];
      destruct (existsb (fun b => b) (b1 :: l1)), (existsb (fun b => b) (b2 :: l2));
      reflexivity.
Qed.

Lemma kindIs_variable_parameter kind :
  kindIs kind "variable" = true -> kindIs kind "parameter" = false.
Proof.
  destruct kind as [k|]; simpl; auto.
  intros H. apply String.eqb_eq in H. now subst.
Qed.

Lemma kindIs_variable_class kind :
  kindIs kind "variable" = true -> kindIs kind "class" = false.
Proof.
  destruct kind as [k|]; simpl; auto.
  intros H. apply String.eqb_eq in H. now subst.
Qed.

Lemma kindIs_parameter_class kind :
  kindIs kind "parameter" = true -> kindIs kind "class" = false.
Proof.
  destruct kind as [k|]; simpl; auto.
  intros H. apply String.eqb_eq in H. now subst.
Qed.

Lemma get_pushRange name range m n :
  JsMap.get n (pushRange name range m)
  = extend (JsMap.get n m) (if String.eqb name n then [range] else []).
Proof.
  unfold pushRange. destruct (String.eqb name n) eqn:Hn.
  - apply String.eqb_eq in Hn. subst n.
    destruct (JsMap.get name m); now rewrite get_set_same.
  - apply String.eqb_neq in Hn.
    destruct (JsMap.get name m); now rewrite get_set_other.
Qed.

Lemma get_markDeclared name modifiers d n :
  JsMap.get n (markDeclared name modifiers d)
  = extendDec (JsMap.get n d)
      (if String.eqb name n then [includes modifiers "declaration"] else []).
Proof.
  unfold markDeclared, JsMap.has. destruct (String.eqb name n) eqn:Hn.
  - apply String.eqb_eq in Hn. subst n. cbn [extendDec existsb].
    destruct (includes modifiers "declaration").
    + now rewrite get_set_same.
    + destruct (JsMap.get name d) as [b|] eqn:Hg; cbn [negb].
      * rewrite Hg. now destruct b.
      * now rewrite get_set_same.
  - apply String.eqb_neq in Hn. cbn [extendDec].
    destruct (includes modifiers "declaration"), (JsMap.get name d); cbn [negb];
      now rewrite ?get_set_other.
Qed.

Lemma NoDup_keys_markDeclared name modifiers d :
  NoDup (JsMap.keys d) -> NoDup (JsMap.keys (markDeclared name modifiers d)).
Proof.
  intros H. unfold markDeclared.
  destruct (includes modifiers "declaration"), (negb (JsMap.has name d));
    repeat apply NoDup_keys_set; exact H.
Qed.

Section ClassifyFacts.

Variables highlightGlobals highlightClasses : bool.

#[local] Abbreviation isVar := (isVarTok highlightGlobals highlightClasses).
#[local] Abbreviation isParam := (isParamTok highlightGlobals).
#[local] Abbreviation step := (classify highlightGlobals highlightClasses).
#[local] Abbreviation steps := (classifyAll highlightGlobals highlightClasses).

Lemma classify_var tok a n :
  JsMap.get n (accumulatorVar (step tok a))
  = extend (JsMap.get n (accumulatorVar a))
      (if isVar tok && named n tok then [tRange tok] else []).
Proof.
  unfold classify, classifyClass, classifyPrimary, isVarTok, named.
  destruct (inclusion highlightGlobals tok); cbn [andb orb].
  - destruct (kindIs (tKind tok) "variable") eqn:Hv.
    + rewrite (kindIs_variable_class _ Hv), andb_false_r. cbn [accumulatorVar orb].
      apply get_pushRange.
    + cbn [orb]. destruct (kindIs (tKind tok) "parameter" && _);
        destruct (highlightClasses && kindIs (tKind tok) "class");
        cbn [accumulatorVar andb]; rewrite ?get_pushRange; reflexivity.
  - destruct (highlightClasses && kindIs (tKind tok) "class");
      cbn [accumulatorVar andb]; rewrite ?get_pushRange; reflexivity.
Qed.

Lemma classify_param tok a n :
  JsMap.get n (accumulatorParam (step tok a))
  = extend (JsMap.get n (accumulatorParam a))
      (if isParam tok && named n tok then [tRange tok] else []).
Proof.
  unfold classify, classifyClass, classifyPrimary, isParamTok, named.
  destruct (inclusion highlightGlobals tok); cbn [andb].
  - destruct (kindIs (tKind tok) "variable") eqn:Hv.
    + rewrite (kindIs_variable_parameter _ Hv).
      destruct (highlightClasses && _); reflexivity.
    + destruct (kindIs (tKind tok) "parameter" && _);
        destruct (highlightClasses && kindIs (tKind tok) "class");
        cbn [accumulatorParam andb]; rewrite ?get_pushRange; reflexivity.
  - destruct (highlightClasses && _); reflexivity.
Qed.

Lemma classify_dec tok a n :
  JsMap.get n (accumulatorWithDec (step tok a))
  = extendDec (JsMap.get n (accumulatorWithDec a))
      (if isParam tok && named n tok
       then [includes (tModifiers tok) "declaration"] else []).
Proof.
  unfold classify, classifyClass, classifyPrimary, isParamTok, named.
  destruct (inclusion highlightGlobals tok); cbn [andb].
  - destruct (kindIs (tKind tok) "variable") eqn:Hv.
    + rewrite (kindIs_variable_parameter _ Hv).
      destruct (highlightClasses && _); reflexivity.
    + destruct (kindIs (tKind tok) "parameter" && _);
        destruct (highlightClasses && kindIs (tKind tok) "class");
        cbn [accumulatorWithDec andb]; rewrite ?get_markDeclared; reflexivity.
  - destruct (highlightClasses && _); reflexivity.
Qed.

Lemma classify_NoDup_dec tok a :
  NoDup (JsMap.keys (accumulatorWithDec a)) ->
  NoDup (JsMap.keys (accumulatorWithDec (step tok a))).
Proof.
  intros H. unfold classify, classifyClass, classifyPrimary.
  destruct (inclusion highlightGlobals tok), (kindIs (tKind tok) "variable");
    try destruct (kindIs (tKind tok) "parameter" && _);
    destruct (highlightClasses && _);
    cbn [accumulatorWithDec]; auto using NoDup_keys_markDeclared.
Qed.

Lemma classifyAll_app toks1 toks2 a :
  steps (toks1 ++ toks2) a = steps toks2 (steps toks1 a).
Proof. apply fold_left_app. Qed.

Lemma classifyAll_var toks : forall a n,
  JsMap.get n (accumulatorVar (steps toks a))
  = extend (JsMap.get n (accumulatorVar a))
      (varRanges highlightGlobals highlightClasses n toks).
Proof.
  induction toks as [|tok toks IH]; intros a n; [reflexivity |].
  change (steps (tok :: toks) a) with (steps toks (step tok a)).
  rewrite IH, classify_var, extend_app. f_equal.
  unfold varRanges. cbn [filter].
  destruct (isVar tok && named n tok); reflexivity.
Qed.

Lemma classifyAll_param toks : forall a n,
  JsMap.get n (accumulatorParam (steps toks a))
  = extend (JsMap.get n (accumulatorParam a)) (paramRanges highlightGlobals n toks).
Proof.
  induction toks as [|tok toks IH]; intros a n; [reflexivity |].
  change (steps (tok :: toks) a) with (steps toks (step tok a)).
  rewrite IH, classify_param, extend_app. f_equal.
  unfold paramRanges. cbn [filter].
  destruct (isParam tok && named n tok); reflexivity.
Qed.

Lemma classifyAll_dec toks : forall a n,
  JsMap.get n (accumulatorWithDec (steps toks a))
  = extendDec (JsMap.get n (accumulatorWithDec a)) (declFlags highlightGlobals n toks).
Proof.
  induction toks as [|tok toks IH]; intros a n; [reflexivity |].
  change (steps (tok :: toks) a) with (steps toks (step tok a)).
  rewrite IH, classify_dec, extendDec_app. f_equal.
  unfold declFlags. cbn [filter].
  destruct (isParam tok && named n tok); reflexivity.
Qed.

Lemma classifyAll_NoDup_dec toks : forall a,
  NoDup (JsMap.keys (accumulatorWithDec a)) ->
  NoDup (JsMap.keys (accumulatorWithDec (steps toks a))).
Proof.
  induction toks as [|tok toks IH]; intros a H; [exact H |].
  apply IH, classify_NoDup_dec, H.
Qed.

Lemma declFlags_nil_paramRanges n toks :
  declFlags highlightGlobals n toks = [] <-> paramRanges highlightGlobals n toks = [].
Proof.
  unfold declFlags, paramRanges.
  destruct (filter _ toks); simpl; split; congruence.
Qed.

Lemma existsb_declFlags n toks :
  existsb (fun b => b) (declFlags highlightGlobals n toks) = declaredIn highlightGlobals n toks.
Proof.
  unfold declFlags, declaredIn.
  induction toks as [|tok toks IH]; [reflexivity |].
  cbn [filter existsb]. destruct (isParam tok && named n tok); cbn [map existsb andb].
  - now rewrite IH.
  - exact IH.
Qed.

End ClassifyFacts.

(** ** The end of the function: lines 120-138 *)

Lemma forceDeclared_fold_get (l : list (string * bool)) : forall (m : JsMap.t bool) n,
  JsMap.get n (fold_left (fun m' entry => JsMap.set (fst entry) true m') l m)
  = if existsb (String.eqb n) (JsMap.keys l) then Some true else JsMap.get n m.
Proof.
  induction l as [|[k b] l IH]; intros m n; [reflexivity |].
  cbn [fold_left JsMap.keys map existsb fst]. fold (JsMap.keys l). rewrite IH.
  destruct (existsb (String.eqb n) (JsMap.keys l)); [now rewrite orb_true_r |].
  rewrite orb_false_r. destruct (String.eqb n k) eqn:Hk.
  - apply String.eqb_eq in Hk. subst. apply get_set_same.
  - apply String.eqb_neq in Hk. apply get_set_other. congruence.
Qed.

Lemma forceDeclared_fold_keys (l : list (string * bool)) : forall (m : JsMap.t bool),
  incl (JsMap.keys l) (JsMap.keys m) ->
  JsMap.keys (fold_left (fun m' entry => JsMap.set (fst entry) true m') l m) = JsMap.keys m.
Proof.
  induction l as [|[k b] l IH]; intros m Hincl; [reflexivity |].
  cbn [fold_left fst].
  assert (Hk : JsMap.keys (JsMap.set k true m) = JsMap.keys m).
  { rewrite keys_set.
    replace (JsMap.has k m) with true; [reflexivity |].
    symmetry. apply has_true_keys, Hincl. now left. }
  rewrite IH; [exact Hk |]. rewrite Hk.
  intros x Hx. apply Hincl. now right.
Qed.

Lemma forceDeclared_get (d : JsMap.t bool) n :
  JsMap.get n (forceDeclared d)
  = match JsMap.get n d with Some _ => Some true | None => None end.
Proof.
  unfold forceDeclared. rewrite forceDeclared_fold_get.
  destruct (JsMap.get n d) eqn:Hg.
  - replace (existsb (String.eqb n) (JsMap.keys d)) with true; [reflexivity |].
    symmetry. apply existsb_exists. exists n. split; [| apply String.eqb_refl].
    apply has_true_keys. unfold JsMap.has. now rewrite Hg.
  - replace (existsb (String.eqb n) (JsMap.keys d)) with false; [reflexivity |].
    symmetry. apply not_true_is_false. intros Hex.
    apply existsb_exists in Hex. destruct Hex as (x & Hin & Heq).
    apply String.eqb_eq in Heq. subst x. apply get_None_keys in Hg. tauto.
Qed.

Lemma forceDeclared_keys (d : JsMap.t bool) :
  JsMap.keys (forceDeclared d) = JsMap.keys d.
Proof. apply forceDeclared_fold_keys, incl_refl. Qed.

(** Every entry is [true] after lines 120-124, and no key is added or lost. *)
Lemma forceDeclared_all_true (d : JsMap.t bool) n b :
  JsMap.get n (forceDeclared d) = Some b -> b = true.
Proof.
  rewrite forceDeclared_get. destruct (JsMap.get n d); congruence.
Qed.

(** The entry of [n] in [accumulatorVar] once the loop of line 125 has run
    over the entries [d] of [accumulatorWithDec]. *)
Lemma reconcile_var (d : JsMap.t bool) : forall p v n,
  NoDup (JsMap.keys d) ->
  JsMap.get n (snd (fold_left reconcileEntry d (p, v)))
  = match JsMap.get n d with
    | Some true => Some (getParam n v ++ getParam n p)
    | _ => JsMap.get n v
    end.
Proof.
  induction d as [|[k b] d IH]; intros p v n Hnd; [reflexivity |].
  cbn [JsMap.keys map fst] in Hnd. fold (JsMap.keys d) in Hnd.
  inversion Hnd as [|? ? Hk Hnd']; subst.
  cbn [fold_left JsMap.get].
  destruct (String.eqb n k) eqn:Hn.
  - apply String.eqb_eq in Hn. subst n.
    apply get_None_keys in Hk.
    unfold reconcileEntry. destruct b; cbn [negb].
    + assert (Hv : getParam k v
                   = match JsMap.get k v with Some vs => vs | None => [] end)
        by reflexivity.
      destruct (JsMap.get k v) as [vs|] eqn:Hg;
        rewrite IH, Hk, get_set_same by assumption;
        rewrite Hv; reflexivity.
    + rewrite IH, Hk by assumption. reflexivity.
  - apply String.eqb_neq in Hn.
    assert (Hkn : k <> n) by congruence.
    unfold reconcileEntry. destruct b; cbn [negb].
    + destruct (JsMap.get k v) as [vs|]; rewrite IH by assumption;
        unfold getParam; rewrite !get_set_other by assumption; reflexivity.
    + rewrite IH by assumption. unfold getParam.
      rewrite !get_delete_other by assumption. reflexivity.
Qed.

(** The loop of line 125 only ever removes entries of [accumulatorParam]. *)
Lemma reconcile_param_has (d : JsMap.t bool) : forall p v n,
  JsMap.has n (fst (fold_left reconcileEntry d (p, v))) = true -> JsMap.has n p = true.
Proof.
  induction d as [|[k b] d IH]; intros p v n H; [exact H |].
  cbn [fold_left] in H. unfold reconcileEntry in H. destruct b; cbn [negb] in H.
  - destruct (JsMap.get k v); apply IH in H; exact H.
  - apply IH in H. eapply has_delete_le, H.
Qed.

Section ResultFacts.

Variable E : Type.
Variable legend : SemanticTokensLegend.
Variable editor : TextEditor E.
Variables highlightGlobals highlightClasses : bool.

#[local] Abbreviation steps := (classifyAll highlightGlobals highlightClasses).

Lemma getParam_extend rs n (m : JsMap.t (list Range)) :
  JsMap.get n m = extend None rs -> getParam n m = rs.
Proof.
  unfold getParam. intros ->. destruct rs; reflexivity.
Qed.

(** The entries of the map that is returned, read off the tokens. *)
Lemma finalize_get (toks : list Token) (n : string) :
  JsMap.get n (finalize E editor (steps toks emptyAcc))
  = expectedAt highlightGlobals highlightClasses (languageId editor) n toks.
Proof.
  unfold finalize.
  pose proof (classifyAll_NoDup_dec highlightGlobals highlightClasses toks emptyAcc
                (NoDup_nil _)) as Hnd.
  pose proof (classifyAll_var highlightGlobals highlightClasses toks emptyAcc n) as Hv.
  pose proof (classifyAll_param highlightGlobals highlightClasses toks emptyAcc n) as Hp.
  pose proof (classifyAll_dec highlightGlobals highlightClasses toks emptyAcc n) as Hd.
  cbn [emptyAcc accumulatorVar accumulatorParam accumulatorWithDec JsMap.get JsMap.empty]
    in Hv, Hp, Hd.
  rewrite reconcile_var
    by (destruct (String.eqb (languageId editor) "cpp");
        [rewrite forceDeclared_keys |]; exact Hnd).
  rewrite (getParam_extend _ _ _ Hv), (getParam_extend _ _ _ Hp), Hv.
  unfold expectedAt.
  pose proof (declFlags_nil_paramRanges highlightGlobals n toks) as Hnil.
  pose proof (existsb_declFlags highlightGlobals n toks) as Hex.
  assert (Hne : forall vs, extend None vs = nonEmpty vs) by (intros [|]; reflexivity).
  rewrite Hne.
  destruct (String.eqb (languageId editor) "cpp"); cbn [orb].
  - rewrite forceDeclared_get, Hd.
    destruct (declFlags highlightGlobals n toks) as [|b bs] eqn:Hf.
    + destruct Hnil as [Hnil _]. rewrite (Hnil eq_refl). reflexivity.
    + destruct (paramRanges highlightGlobals n toks) as [|r rs] eqn:Hr.
      * destruct Hnil as [_ Hnil]. discriminate (Hnil eq_refl).
      * reflexivity.
  - rewrite Hd.
    destruct (declFlags highlightGlobals n toks) as [|b bs] eqn:Hf.
    + destruct Hnil as [Hnil _]. rewrite (Hnil eq_refl). reflexivity.
    + destruct (paramRanges highlightGlobals n toks) as [|r rs] eqn:Hr.
      * destruct Hnil as [_ Hnil]. discriminate (Hnil eq_refl).
      * cbn [extendDec]. rewrite Hex, orb_false_r.
        destruct (declaredIn highlightGlobals n toks); reflexivity.
Qed.

(** When every [getText] returns, the function returns, and its map has
    the entries read off the tokens. *)
Lemma rangesByName_get (data : list N) (toks : list Token) :
  tokensOf E legend editor data = Ok toks ->
  exists m,
    rangesByName E legend editor highlightGlobals highlightClasses data = Ok m
    /\ m = finalize E editor (steps toks emptyAcc)
    /\ forall n, JsMap.get n m
                 = expectedAt highlightGlobals highlightClasses (languageId editor) n toks.
Proof.
  intros Htoks. rewrite rangesByName_tokens, Htoks. cbn [bind].
  eexists. split; [reflexivity |]. split; [reflexivity |].
  intros n. apply finalize_get.
Qed.

End ResultFacts.

(** ** [accumulatorParam.get(name)!] is never [undefined] *)

Lemma reconcile_param_other (d : JsMap.t bool) : forall p v n,
  ~ In n (JsMap.keys d) ->
  JsMap.get n (fst (fold_left reconcileEntry d (p, v))) = JsMap.get n p.
Proof.
  induction d as [|[k b] d IH]; intros p v n Hn; [reflexivity |].
  cbn [JsMap.keys map fst In] in Hn. fold (JsMap.keys d) in Hn.
  assert (Hkn : k <> n) by tauto. assert (Hd : ~ In n (JsMap.keys d)) by tauto.
  cbn [fold_left]. unfold reconcileEntry. destruct b; cbn [negb].
  - destruct (JsMap.get k v); now rewrite IH.
  - rewrite IH by assumption. now apply get_delete_other.
Qed.

Lemma reconcile_get_defined (E : Type) (editor : TextEditor E)
  (highlightGlobals highlightClasses : bool) (toks : list Token) d1 name isDeclared d2 :
  let a := classifyAll highlightGlobals highlightClasses toks emptyAcc in
  (if String.eqb (languageId editor) "cpp"
   then forceDeclared (accumulatorWithDec a) else accumulatorWithDec a)
  = d1 ++ (name, isDeclared) :: d2 ->
  JsMap.has name (fst (reconcileUpTo d1 a)) = true.
Proof.
  intros a Hd.
  set (d := if String.eqb (languageId editor) "cpp"
            then forceDeclared (accumulatorWithDec a) else accumulatorWithDec a) in Hd.
  assert (Hkeys : JsMap.keys d = JsMap.keys (accumulatorWithDec a)).
  { unfold d. destruct (String.eqb (languageId editor) "cpp"); auto using forceDeclared_keys. }
  assert (Hnd : NoDup (JsMap.keys d)).
  { rewrite Hkeys. apply classifyAll_NoDup_dec. constructor. }
  assert (Hin : In name (JsMap.keys (accumulatorWithDec a))).
  { rewrite <- Hkeys, Hd. unfold JsMap.keys. rewrite map_app, in_app_iff. right. now left. }
  assert (Hnot : ~ In name (JsMap.keys d1)).
  { rewrite Hd in Hnd. unfold JsMap.keys in Hnd. rewrite map_app in Hnd.
    apply NoDup_remove_2 in Hnd. rewrite in_app_iff in Hnd.
    unfold JsMap.keys. tauto. }
  unfold reconcileUpTo, JsMap.has. rewrite reconcile_param_other by assumption.
  apply has_true_keys in Hin. unfold JsMap.has in Hin.
  unfold a in *. rewrite classifyAll_dec in Hin. rewrite classifyAll_param.
  cbn [emptyAcc accumulatorParam accumulatorWithDec JsMap.get JsMap.empty] in *.
  pose proof (declFlags_nil_paramRanges highlightGlobals name toks) as [_ Hnil].
  destruct (paramRanges highlightGlobals name toks); [| reflexivity].
  rewrite (Hnil eq_refl) in Hin. discriminate.
Qed.

(** ** Where a token's range ends up *)

Section Membership.

Variables highlightGlobals highlightClasses : bool.

Lemma in_varRanges tok toks :
  In tok toks -> isVarTok highlightGlobals highlightClasses tok = true ->
  In (tRange tok) (varRanges highlightGlobals highlightClasses (tName tok) toks).
Proof.
  intros Hin Hv. unfold varRanges. apply in_map, filter_In. split; [exact Hin |].
  unfold named. now rewrite Hv, String.eqb_refl.
Qed.

Lemma in_paramRanges tok toks :
  In tok toks -> isParamTok highlightGlobals tok = true ->
  In (tRange tok) (paramRanges highlightGlobals (tName tok) toks).
Proof.
  intros Hin Hp. unfold paramRanges. apply in_map, filter_In. split; [exact Hin |].
  unfold named. now rewrite Hp, String.eqb_refl.
Qed.

Lemma declaredIn_intro tok toks :
  In tok toks -> isParamTok highlightGlobals tok = true ->
  includes (tModifiers tok) "declaration" = true ->
  declaredIn highlightGlobals (tName tok) toks = true.
Proof.
  intros Hin Hp Hd. unfold declaredIn. apply existsb_exists. exists tok.
  split; [exact Hin |]. unfold named. now rewrite Hp, Hd, String.eqb_refl.
Qed.

Lemma declaredIn_elim n toks :
  declaredIn highlightGlobals n toks = true ->
  exists tok, In tok toks /\ isParamTok highlightGlobals tok = true
              /\ tName tok = n /\ includes (tModifiers tok) "declaration" = true.
Proof.
  unfold declaredIn. intros H. apply existsb_exists in H.
  destruct H as (tok & Hin & H). apply andb_prop in H. destruct H as [H Hd].
  apply andb_prop in H. destruct H as [Hp Hn]. apply String.eqb_eq in Hn.
  exists tok. auto.
Qed.

Lemma expectedAt_var_in lang n toks r :
  In r (varRanges highlightGlobals highlightClasses n toks) ->
  exists rs, expectedAt highlightGlobals highlightClasses lang n toks = Some rs /\ In r rs.
Proof.
  intros Hin. unfold expectedAt.
  assert (Hne : nonEmpty (varRanges highlightGlobals highlightClasses n toks)
                = Some (varRanges highlightGlobals highlightClasses n toks)).
  { destruct (varRanges highlightGlobals highlightClasses n toks); [destruct Hin | reflexivity]. }
  rewrite Hne.
  destruct (paramRanges highlightGlobals n toks) as [|p ps]; [eauto |].
  destruct (String.eqb lang "cpp" || declaredIn highlightGlobals n toks); [| eauto].
  eexists. split; [reflexivity |]. apply in_or_app. now left.
Qed.

Lemma expectedAt_param_in lang n toks r :
  In r (paramRanges highlightGlobals n toks) ->
  String.eqb lang "cpp" || declaredIn highlightGlobals n toks = true ->
  exists rs, expectedAt highlightGlobals highlightClasses lang n toks = Some rs /\ In r rs.
Proof.
  intros Hin Hd. unfold expectedAt. rewrite Hd.
  destruct (paramRanges highlightGlobals n toks) as [|p ps] eqn:Hp; [destruct Hin |].
  eexists. split; [reflexivity |]. apply in_or_app. now right.
Qed.

Lemma expectedAt_undeclared lang n toks :
  String.eqb lang "cpp" = false ->
  declaredIn highlightGlobals n toks = false ->
  expectedAt highlightGlobals highlightClasses lang n toks
  = nonEmpty (varRanges highlightGlobals highlightClasses n toks).
Proof.
  intros Hl Hd. unfold expectedAt. rewrite Hl, Hd.
  now destruct (paramRanges highlightGlobals n toks).
Qed.

End Membership.

(** * The properties of [rangesByName] *)

(** ** Delta decoding *)

(** C1. On the stream [2,5,3,0,3, 0,5,4,1,0, 3,2,7,2,0] with the legend
    [property, type, class] / [private, static] the successive iterations
    build exactly the ranges (2,5)-(2,8), (2,10)-(2,14) and (5,2)-(5,9), with
    the kinds and modifiers of the legend; and in general the column of a
    token is the previous start column plus [deltaColumn] when [deltaLine] is
    0, and [deltaColumn] alone otherwise, on line [line + deltaLine]. *)
Theorem delta_decode_example :
  rangesOf exampleStream = [exampleRange1; exampleRange2; exampleRange3]
  /\ (forall (text : Range -> string) (lang : string),
        tokensOf unit exampleLegend (totalEditor text lang) exampleStream
        = Ok [mkToken exampleRange1 (text exampleRange1) (Some "property") ["private"; "static"];
              mkToken exampleRange2 (text exampleRange2) (Some "type") [];
              mkToken exampleRange3 (text exampleRange3) (Some "class") []])
  /\ (forall (text : Range -> string) (lang : string) (highlightGlobals : bool),
        rangesByName unit exampleLegend (totalEditor text lang) highlightGlobals true
          exampleStream
        = Ok [(text exampleRange3, [exampleRange3])])
  /\ (forall (line column deltaLine deltaColumn length : N),
        decodeRange line (Num column) deltaLine (Some deltaColumn) (Some length)
        = let line' := (line + deltaLine)%N in
          let column' := ((if (deltaLine =? 0)%N then column else 0) + deltaColumn)%N in
          (line', Num column', mkRange line' (Num column') line' (Num (column' + length)))).
Proof.
  split; [reflexivity |]. split; [reflexivity |]. split.
  - intros text lang highlightGlobals.
    rewrite rangesByName_tokens.
    change (tokensOf unit exampleLegend (totalEditor text lang) exampleStream)
      with (@Ok unit _
              [mkToken exampleRange1 (text exampleRange1) (Some "property") ["private"; "static"];
               mkToken exampleRange2 (text exampleRange2) (Some "type") [];
               mkToken exampleRange3 (text exampleRange3) (Some "class") []]).
    cbn [bind classifyAll fold_left]. unfold classify, classifyPrimary.
    repeat match goal with |- context [inclusion ?g ?t] => destruct (inclusion g t) end;
      cbn; unfold finalize; cbn; destruct (String.eqb lang "cpp"); reflexivity.
  - intros line column deltaLine deltaColumn length. unfold decodeRange.
    destruct (deltaLine =? 0)%N; reflexivity.
Qed.

(** ** Labels *)

Lemma classify_label_noop highlightGlobals highlightClasses tok a :
  kindIs (tKind tok) "parameter" = true ->
  includes (tModifiers tok) "label" = true ->
  classify highlightGlobals highlightClasses tok a = a.
Proof.
  intros Hk Hl. unfold classify, classifyClass, classifyPrimary.
  rewrite (kindIs_parameter_class _ Hk), Hk, Hl, andb_false_r. cbn [negb andb].
  destruct (kindIs (tKind tok) "variable") eqn:Hv.
  - apply kindIs_variable_parameter in Hv. congruence.
  - now destruct (inclusion highlightGlobals tok).
Qed.

(** C7. A parameter-kind token whose modifiers include "label" leaves
    [accumulatorParam] and [accumulatorWithDec] as they are, whether or not
    its modifiers include "declaration"; the accumulators of a whole run are
    those of the run without the token. *)
Theorem label_exclusion (highlightGlobals highlightClasses : bool) (tok : Token) :
  kindIs (tKind tok) "parameter" = true ->
  includes (tModifiers tok) "label" = true ->
  (forall a,
      accumulatorParam (classify highlightGlobals highlightClasses tok a) = accumulatorParam a
      /\ accumulatorWithDec (classify highlightGlobals highlightClasses tok a)
         = accumulatorWithDec a)
  /\ (forall pre post,
        classifyAll highlightGlobals highlightClasses (pre ++ tok :: post) emptyAcc
        = classifyAll highlightGlobals highlightClasses (pre ++ post) emptyAcc).
Proof.
  intros Hk Hl. split.
  - intros a. now rewrite classify_label_noop.
  - intros pre post. rewrite !classifyAll_app.
    change (classifyAll highlightGlobals highlightClasses (tok :: post) ?a)
      with (classifyAll highlightGlobals highlightClasses post
              (classify highlightGlobals highlightClasses tok a)).
    now rewrite classify_label_noop.
Qed.

Lemma label_exclusion_witness :
  let tok := mkToken exampleRange1 "xyz" (Some "parameter") ["declaration"; "label"] in
  let a := mkAcc [("xyz", [exampleRange2])] [] [("xyz", false)] in
  kindIs (tKind tok) "parameter" = true
  /\ includes (tModifiers tok) "label" = true
  /\ includes (tModifiers tok) "declaration" = true
  /\ accumulatorParam (classify true true tok a) = [("xyz", [exampleRange2])]
  /\ accumulatorWithDec (classify true true tok a) = [("xyz", false)].
Proof.
  intros tok a. split; [reflexivity |]. split; [reflexivity |]. split; [reflexivity |].
  exact (proj1 (label_exclusion true true tok eq_refl eq_refl) a).
Defined.

(** ** The invariant *)

Lemma classify_paramKeysDeclared highlightGlobals highlightClasses tok a :
  paramKeysDeclared a ->
  paramKeysDeclared (classify highlightGlobals highlightClasses tok a).
Proof.
  intros Ha n. specialize (Ha n). unfold JsMap.has in *.
  rewrite classify_param, classify_dec.
  destruct (isParamTok highlightGlobals tok && named n tok); cbn [extend extendDec].
  - reflexivity.
  - exact Ha.
Qed.

Lemma classifyAll_paramKeysDeclared highlightGlobals highlightClasses toks : forall a,
  paramKeysDeclared a ->
  paramKeysDeclared (classifyAll highlightGlobals highlightClasses toks a).
Proof.
  induction toks as [|tok toks IH]; intros a Ha; [exact Ha |].
  apply IH, classify_paramKeysDeclared, Ha.
Qed.

Lemma emptyAcc_paramKeysDeclared : paramKeysDeclared emptyAcc.
Proof. intros n H. discriminate H. Qed.

Lemma loop_classifyAll (E : Type) legend (editor : TextEditor E)
  highlightGlobals highlightClasses data st st' :
  loop E legend editor highlightGlobals highlightClasses data st = Ok st' ->
  exists toks,
    tokensFrom E legend editor (line st) (column st) (records data) = Ok toks
    /\ acc st' = classifyAll highlightGlobals highlightClasses toks (acc st).
Proof.
  intros H.
  pose proof (loop_tokensFrom E legend editor highlightGlobals highlightClasses data st) as L.
  rewrite H in L. cbn [bind] in L.
  destruct (tokensFrom E legend editor (line st) (column st) (records data)) as [toks | e];
    cbn [bind] in L; [| discriminate].
  exists toks. split; [reflexivity | congruence].
Qed.

(** C9. Every key of [accumulatorParam] is a key of [accumulatorWithDec]:
    after the iterations on any tokens, hence after every iteration of a
    run; in the state the loop ends in; between lines 99 and 101 of an
    iteration; and after lines 120-137.  A name that is not yet a key of
    [accumulatorWithDec] gets its entry from lines 94-99, [false] unless the
    token carries "declaration". *)
Theorem param_keys_declared (highlightGlobals highlightClasses : bool) :
  (forall toks n,
      JsMap.has n (accumulatorParam
                     (classifyAll highlightGlobals highlightClasses toks emptyAcc)) = true ->
      JsMap.has n (accumulatorWithDec
                     (classifyAll highlightGlobals highlightClasses toks emptyAcc)) = true)
  /\ (forall E legend (editor : TextEditor E) data st,
        loop E legend editor highlightGlobals highlightClasses data initState = Ok st ->
        paramKeysDeclared (acc st))
  /\ (forall a tok,
        paramKeysDeclared a ->
        paramKeysDeclared
          (mkAcc (accumulatorParam a) (accumulatorVar a)
             (markDeclared (tName tok) (tModifiers tok) (accumulatorWithDec a)))
        /\ paramKeysDeclared (classify highlightGlobals highlightClasses tok a))
  /\ (forall d name modifiers,
        JsMap.has name d = false ->
        JsMap.get name (markDeclared name modifiers d)
        = Some (includes modifiers "declaration"))
  /\ (forall E (editor : TextEditor E) toks n,
        let a := classifyAll highlightGlobals highlightClasses toks emptyAcc in
        let d := if String.eqb (languageId editor) "cpp"
                 then forceDeclared (accumulatorWithDec a) else accumulatorWithDec a in
        JsMap.has n (fst (fold_left reconcileEntry d (accumulatorParam a, accumulatorVar a)))
        = true ->
        JsMap.has n d = true).
Proof.
  repeat split.
  - intros toks n.
    apply (classifyAll_paramKeysDeclared highlightGlobals highlightClasses toks emptyAcc
             emptyAcc_paramKeysDeclared n).
  - intros E legend editor data st H.
    apply loop_classifyAll in H. destruct H as (toks & _ & ->).
    apply classifyAll_paramKeysDeclared, emptyAcc_paramKeysDeclared.
  - intros n Hn. cbn [accumulatorParam accumulatorWithDec] in *.
    apply H in Hn. unfold JsMap.has in *. rewrite get_markDeclared.
    destruct (JsMap.get n (accumulatorWithDec a)); [| discriminate].
    now destruct (String.eqb (tName tok) n).
  - now apply classify_paramKeysDeclared.
  - intros d name modifiers Hh. rewrite get_markDeclared, String.eqb_refl.
    unfold JsMap.has in Hh. destruct (JsMap.get name d); [discriminate |].
    cbn. now rewrite !orb_false_r.
  - intros E editor toks n a d Hn.
    apply reconcile_param_has in Hn.
    apply (classifyAll_paramKeysDeclared highlightGlobals highlightClasses toks emptyAcc
             emptyAcc_paramKeysDeclared n) in Hn.
    fold a in Hn. unfold d, JsMap.has in *.
    destruct (String.eqb (languageId editor) "cpp"); [| exact Hn].
    rewrite forceDeclared_get. now destruct (JsMap.get n (accumulatorWithDec a)).
Qed.

Lemma param_keys_declared_witness :
  let toks := [mkToken exampleRange1 "xyz" (Some "parameter") [];
               mkToken exampleRange2 "xyz" (Some "parameter") ["declaration"]] in
  JsMap.has "xyz" (accumulatorParam (classifyAll true false toks emptyAcc)) = true
  /\ JsMap.has "xyz" (accumulatorWithDec (classifyAll true false toks emptyAcc)) = true.
Proof.
  intros toks. split; [reflexivity |].
  exact (proj1 (param_keys_declared true false) toks "xyz" eq_refl).
Defined.

(** ** A [getText] that throws *)

Section Failure.

Variable E : Type.
Variable legend : SemanticTokensLegend.
Variable editor : TextEditor E.

Lemma tokensFrom_first_failure (rs : list Record5) :
  forall line column pre r post e,
    rangesFrom line column rs = pre ++ r :: post ->
    Forall (fun r' => exists s, getText editor r' = Ok s) pre ->
    getText editor r = Err e ->
    tokensFrom E legend editor line column rs = Err e.
Proof.
  induction rs as [|[[[[deltaLine deltaColumn] length] kindIndex] modifierIndex] rs IH];
    intros line column pre r post e Hr Hpre He.
  - destruct pre; discriminate Hr.
  - cbn [rangesFrom tokensFrom] in *. unfold decodeRange in *.
    destruct pre as [|r0 pre]; cbn [app] in Hr; injection Hr as Hr0 Hr.
    + rewrite Hr0, He. reflexivity.
    + inversion Hpre as [|? ? [s Hs] Hpre']; subst.
      rewrite Hs. cbn [bind].
      now rewrite (IH _ _ pre r post e Hr Hpre' He).
Qed.

Lemma tokensFrom_cases (rs : list Record5) : forall line column,
  match tokensFrom E legend editor line column rs with
  | Ok toks =>
      map tRange toks = rangesFrom line column rs
      /\ Forall (fun tok => getText editor (tRange tok) = Ok (tName tok)) toks
  | Err e =>
      exists pre r post,
        rangesFrom line column rs = pre ++ r :: post
        /\ Forall (fun r' => exists s, getText editor r' = Ok s) pre
        /\ getText editor r = Err e
  end.
Proof.
  induction rs as [|[[[[deltaLine deltaColumn] length] kindIndex] modifierIndex] rs IH];
    intros line column.
  - split; constructor.
  - cbn [rangesFrom tokensFrom]. unfold decodeRange.
    match goal with |- context [getText editor ?r] =>
      set (range := r); destruct (getText editor range) as [name | e] eqn:Hg end;
      cbn [bind].
    + match goal with |- context [tokensFrom E legend editor ?l ?c rs] =>
        specialize (IH l c); destruct (tokensFrom E legend editor l c rs) as [toks | e] end;
        cbn [bind].
      * destruct IH as [Hm Hf]. split.
        -- cbn [map tRange]. now rewrite Hm.
        -- constructor; [exact Hg | exact Hf].
      * destruct IH as (pre & r & post & Hr & Hpre & He).
        exists (range :: pre), r, post. split; [| split].
        -- now rewrite Hr.
        -- constructor; [eauto | exact Hpre].
        -- exact He.
    + exists [], range, (rangesFrom (line + deltaLine)
                           (num_add (if (deltaLine =? 0)%N then column else Num 0)
                              deltaColumn) rs).
      split; [reflexivity |]. split; [constructor | exact Hg].
Qed.

End Failure.

(** C8. When [getText] throws on the range of a token, all earlier ranges
    having been resolved, [rangesByName] ends with that exception and no
    map.  What the function returns is either the map built from the tokens
    of all the records, or the exception of the first range that [getText]
    failed on. *)
Theorem getText_failure_aborts (E : Type) (legend : SemanticTokensLegend)
  (editor : TextEditor E) (highlightGlobals highlightClasses : bool) (data : list N) :
  (forall pre r post e,
      rangesOf data = pre ++ r :: post ->
      Forall (fun r' => exists s, getText editor r' = Ok s) pre ->
      getText editor r = Err e ->
      rangesByName E legend editor highlightGlobals highlightClasses data = Err e)
  /\ match rangesByName E legend editor highlightGlobals highlightClasses data with
     | Ok m =>
         exists toks,
           tokensOf E legend editor data = Ok toks
           /\ map tRange toks = rangesOf data
           /\ m = finalize E editor
                    (classifyAll highlightGlobals highlightClasses toks emptyAcc)
     | Err e =>
         exists pre r post,
           rangesOf data = pre ++ r :: post
           /\ Forall (fun r' => exists s, getText editor r' = Ok s) pre
           /\ getText editor r = Err e
     end.
Proof.
  rewrite rangesByName_tokens. unfold tokensOf, rangesOf. split.
  - intros pre r post e Hr Hpre He.
    now rewrite (tokensFrom_first_failure E legend editor _ _ _ pre r post e Hr Hpre He).
  - pose proof (tokensFrom_cases E legend editor (records data) 0 (Num 0)) as H.
    destruct (tokensFrom E legend editor 0 (Num 0) (records data)) as [toks | e];
      cbn [bind].
    + exists toks. destruct H as [Hm _]. auto.
    + exact H.
Qed.

Lemma getText_failure_aborts_witness :
  let data := [0; 0; 2; 0; 0;  0; 3; 3; 1; 2;  1; 0; 2; 0; 0;  0; 3; 3; 0; 0]%N in
  let r1 := mkRange 0 (Num 0) 0 (Num 2) in
  let r2 := mkRange 0 (Num 3) 0 (Num 6) in
  let r3 := mkRange 1 (Num 0) 1 (Num 2) in
  let r4 := mkRange 1 (Num 3) 1 (Num 6) in
  rangesOf data = [r1; r2] ++ r3 :: [r4]
  /\ Forall (fun r' => exists s, getText closingEditor r' = Ok s) [r1; r2]
  /\ getText closingEditor r3 = Err SourceUnavailable
  /\ rangesByName TextError fullLegend closingEditor true true data = Err SourceUnavailable.
Proof.
  intros data r1 r2 r3 r4.
  assert (Hpre : Forall (fun r' => exists s, getText closingEditor r' = Ok s) [r1; r2]).
  { repeat constructor; eexists; reflexivity. }
  split; [reflexivity |]. split; [exact Hpre |]. split; [reflexivity |].
  exact (proj1 (getText_failure_aborts TextError fullLegend closingEditor true true data)
           [r1; r2] r3 [r4] SourceUnavailable eq_refl Hpre eq_refl).
Defined.

(** ** Globals and short names *)

Lemma classify_global_variable_noop highlightClasses tok a :
  kindIs (tKind tok) "variable" = true ->
  includes (tModifiers tok) "global" = true ->
  classify false highlightClasses tok a = a.
Proof.
  intros Hk Hg. unfold classify, classifyClass, classifyPrimary, inclusion.
  rewrite (kindIs_variable_class _ Hk), Hg, andb_false_r. reflexivity.
Qed.

Lemma isVarTok_variable highlightGlobals highlightClasses tok :
  kindIs (tKind tok) "variable" = true ->
  inclusion highlightGlobals tok = true ->
  isVarTok highlightGlobals highlightClasses tok = true.
Proof. intros Hk Hi. unfold isVarTok. now rewrite Hk, Hi. Qed.

(** C2, as the code has it.  With [highlightGlobals] false, a variable-kind
    token whose modifiers include "global" adds nothing to the returned map,
    whatever the length of its name (2 or 3): the map is the one of the run
    without that token.  A variable-kind token whose name is longer than 2
    has its range in the returned map under its name when its modifiers do
    not include "global". *)
Theorem global_suppression (E : Type) (legend : SemanticTokensLegend)
  (editor : TextEditor E) (highlightClasses : bool) (data : list N) (toks : list Token) :
  tokensOf E legend editor data = Ok toks ->
  exists m,
    rangesByName E legend editor false highlightClasses data = Ok m
    /\ (forall pre tok post,
          toks = pre ++ tok :: post ->
          kindIs (tKind tok) "variable" = true ->
          includes (tModifiers tok) "global" = true ->
          m = finalize E editor (classifyAll false highlightClasses (pre ++ post) emptyAcc))
    /\ (forall tok,
          In tok toks ->
          kindIs (tKind tok) "variable" = true ->
          includes (tModifiers tok) "global" = false ->
          2 < String.length (tName tok) ->
          exists rs, JsMap.get (tName tok) m = Some rs /\ In (tRange tok) rs).
Proof.
  intros Htoks.
  destruct (rangesByName_get E legend editor false highlightClasses data toks Htoks)
    as (m & Hm & Hfin & Hget).
  exists m. split; [exact Hm |]. split.
  - intros pre tok post -> Hk Hg. rewrite Hfin, !classifyAll_app.
    change (classifyAll false highlightClasses (tok :: post) ?a)
      with (classifyAll false highlightClasses post (classify false highlightClasses tok a)).
    now rewrite classify_global_variable_noop.
  - intros tok Hin Hk Hg Hlen. rewrite Hget.
    apply expectedAt_var_in, in_varRanges; [exact Hin |].
    apply isVarTok_variable; [exact Hk |].
    unfold inclusion. rewrite Hg. apply Nat.ltb_lt in Hlen. now rewrite Hlen.
Qed.

Lemma global_suppression_witness :
  let data := [0; 0; 2; 0; 1;  0; 3; 3; 0; 1;  1; 3; 3; 0; 0]%N in
  let ab := mkToken (mkRange 0 (Num 0) 0 (Num 2)) "ab" (Some "variable") ["global"] in
  let xyz := mkToken (mkRange 0 (Num 3) 0 (Num 6)) "xyz" (Some "variable") ["global"] in
  let xyz' := mkToken (mkRange 1 (Num 3) 1 (Num 6)) "xyz" (Some "variable") [] in
  let editor := totalEditor sampleText "python" in
  tokensOf unit fullLegend editor data = Ok [ab; xyz; xyz']
  /\ exists m,
       rangesByName unit fullLegend editor false false data = Ok m
       /\ m = finalize unit editor (classifyAll false false [xyz; xyz'] emptyAcc)
       /\ m = finalize unit editor (classifyAll false false [ab; xyz'] emptyAcc)
       /\ exists rs, JsMap.get "xyz" m = Some rs /\ In (mkRange 1 (Num 3) 1 (Num 6)) rs.
Proof.
  intros data ab xyz xyz' editor. split; [reflexivity |].
  destruct (global_suppression unit fullLegend editor false data [ab; xyz; xyz'] eq_refl)
    as (m & Hm & Hglobal & Hplain).
  exists m. split; [exact Hm |]. split; [| split].
  - exact (Hglobal [] ab [xyz; xyz'] eq_refl eq_refl eq_refl).
  - exact (Hglobal [ab] xyz [xyz'] eq_refl eq_refl eq_refl).
  - apply (Hplain xyz'); [right; right; left | | |]; try reflexivity.
    cbn. lia.
Defined.

(** C2 as the spec words it fails: with [highlightGlobals] false, a
    variable-kind token whose name has length 3 and whose modifiers include
    "global" is not in the returned map. *)
Lemma global_length3_suppressed :
  let data := [0; 3; 3; 0; 1]%N in
  let editor := totalEditor sampleText "python" in
  tokensOf unit fullLegend editor data
  = Ok [mkToken (mkRange 0 (Num 3) 0 (Num 6)) "xyz" (Some "variable") ["global"]]
  /\ String.length "xyz" = 3
  /\ rangesByName unit fullLegend editor false false data = Ok []
  /\ ~ (exists m rs,
          rangesByName unit fullLegend editor false false data = Ok m
          /\ JsMap.get "xyz" m = Some rs).
Proof.
  intros data editor. repeat split.
  intros (m & rs & Hm & Hrs).
  change (rangesByName unit fullLegend editor false false data) with (@Ok unit _ (@nil (string * list Range))) in Hm.
  injection Hm as <-. discriminate Hrs.
Qed.

(** ** Parameters and their declaration *)

Lemma isParamTok_intro highlightGlobals tok :
  kindIs (tKind tok) "parameter" = true ->
  inclusion highlightGlobals tok = true ->
  includes (tModifiers tok) "label" = false ->
  isParamTok highlightGlobals tok = true.
Proof. intros Hk Hi Hl. unfold isParamTok. now rewrite Hk, Hi, Hl. Qed.

Lemma isParamTok_kind highlightGlobals tok :
  isParamTok highlightGlobals tok = true -> kindIs (tKind tok) "parameter" = true.
Proof.
  unfold isParamTok. intros H.
  apply andb_prop in H. destruct H as [H _]. apply andb_prop in H. tauto.
Qed.

Lemma get_Some_has {V : Type} n (m : JsMap.t V) v :
  JsMap.get n m = Some v -> JsMap.has n m = true.
Proof. unfold JsMap.has. now intros ->. Qed.

(** C3, as the code has it.  When [languageId] is not "cpp": a name with a
    parameter-kind occurrence that passes the inclusion test, does not carry
    "label" and carries "declaration" is a key of the returned map; a name
    none of whose parameter-kind occurrences carries "declaration", and
    which has no variable-classified range, is not a key of it. *)
Theorem parameter_promotion (E : Type) (legend : SemanticTokensLegend)
  (editor : TextEditor E) (highlightGlobals highlightClasses : bool)
  (data : list N) (toks : list Token) (n : string) :
  tokensOf E legend editor data = Ok toks ->
  languageId editor <> "cpp" ->
  exists m,
    rangesByName E legend editor highlightGlobals highlightClasses data = Ok m
    /\ ((exists tok,
            In tok toks /\ tName tok = n
            /\ kindIs (tKind tok) "parameter" = true
            /\ inclusion highlightGlobals tok = true
            /\ includes (tModifiers tok) "label" = false
            /\ includes (tModifiers tok) "declaration" = true) ->
        JsMap.has n m = true)
    /\ ((forall tok,
            In tok toks -> tName tok = n ->
            kindIs (tKind tok) "parameter" = true ->
            includes (tModifiers tok) "declaration" = false) ->
        varRanges highlightGlobals highlightClasses n toks = [] ->
        JsMap.has n m = false).
Proof.
  intros Htoks Hlang.
  destruct (rangesByName_get E legend editor highlightGlobals highlightClasses data toks Htoks)
    as (m & Hm & _ & Hget).
  exists m. split; [exact Hm |]. split.
  - intros (tok & Hin & <- & Hk & Hi & Hl & Hd).
    pose proof (isParamTok_intro highlightGlobals tok Hk Hi Hl) as Hp.
    destruct (expectedAt_param_in highlightGlobals highlightClasses (languageId editor)
                (tName tok) toks (tRange tok)) as (rs & Hrs & _).
    + now apply in_paramRanges.
    + rewrite (declaredIn_intro highlightGlobals tok toks Hin Hp Hd). apply orb_true_r.
    + rewrite <- Hget in Hrs. eapply get_Some_has, Hrs.
  - intros Hnone Hvs. unfold JsMap.has. rewrite Hget, expectedAt_undeclared.
    + now rewrite Hvs.
    + now apply String.eqb_neq.
    + apply not_true_is_false. intros Hd.
      apply declaredIn_elim in Hd. destruct Hd as (tok & Hin & Hp & Hn & Hd).
      rewrite (Hnone tok Hin Hn (isParamTok_kind _ _ Hp)) in Hd. discriminate.
Qed.

Lemma parameter_promotion_witness :
  let editor := totalEditor sampleText "python" in
  let declared := [0; 3; 3; 1; 2;  1; 3; 3; 1; 0]%N in
  let undeclared := [0; 3; 3; 1; 0;  1; 3; 3; 1; 0]%N in
  let r0 := mkRange 0 (Num 3) 0 (Num 6) in
  let r1 := mkRange 1 (Num 3) 1 (Num 6) in
  (tokensOf unit fullLegend editor declared
   = Ok [mkToken r0 "xyz" (Some "parameter") ["declaration"];
         mkToken r1 "xyz" (Some "parameter") []]
   /\ languageId editor <> "cpp"
   /\ exists m, rangesByName unit fullLegend editor false false declared = Ok m
                /\ JsMap.has "xyz" m = true)
  /\ (tokensOf unit fullLegend editor undeclared
      = Ok [mkToken r0 "xyz" (Some "parameter") []; mkToken r1 "xyz" (Some "parameter") []]
      /\ exists m, rangesByName unit fullLegend editor false false undeclared = Ok m
                   /\ JsMap.has "xyz" m = false).
Proof.
  intros editor declared undeclared r0 r1.
  assert (Hlang : languageId editor <> "cpp") by discriminate.
  split.
  - split; [reflexivity |]. split; [exact Hlang |].
    destruct (parameter_promotion unit fullLegend editor false false declared _ "xyz"
                eq_refl Hlang) as (m & Hm & Hyes & _).
    exists m. split; [exact Hm |]. apply Hyes.
    exists (mkToken r0 "xyz" (Some "parameter") ["declaration"]).
    repeat split. now left.
  - split; [reflexivity |].
    destruct (parameter_promotion unit fullLegend editor false false undeclared _ "xyz"
                eq_refl Hlang) as (m & Hm & _ & Hno).
    exists m. split; [exact Hm |]. apply Hno; [| reflexivity].
    intros tok [<- | [<- | []]]; reflexivity.
Defined.

(** C3 as the spec words it fails: a parameter-kind occurrence that passes
    the inclusion test and carries "declaration" does not bring its name
    into the returned map when it also carries "label". *)
Lemma declared_label_parameter_dropped :
  let data := [0; 3; 3; 1; 6]%N in
  let editor := totalEditor sampleText "python" in
  let tok := mkToken (mkRange 0 (Num 3) 0 (Num 6)) "xyz" (Some "parameter")
               ["declaration"; "label"] in
  tokensOf unit fullLegend editor data = Ok [tok]
  /\ languageId editor <> "cpp"
  /\ inclusion true tok = true
  /\ includes (tModifiers tok) "declaration" = true
  /\ rangesByName unit fullLegend editor true true data = Ok []
  /\ ~ (exists m, rangesByName unit fullLegend editor true true data = Ok m
                  /\ JsMap.has "xyz" m = true).
Proof.
  intros data editor tok.
  split; [reflexivity |]. split; [discriminate |]. split; [reflexivity |].
  split; [reflexivity |]. split; [reflexivity |].
  intros (m & Hm & Hhas).
  change (rangesByName unit fullLegend editor true true data)
    with (@Ok unit _ (@nil (string * list Range))) in Hm.
  injection Hm as <-. discriminate Hhas.
Qed.

(** ** The exception for cpp *)

(** C4.  When [languageId] is "cpp", lines 120-124 leave [true] in every
    entry of [accumulatorWithDec] and keep its keys, so that the range of
    every parameter-kind token that passes the inclusion test and does not
    carry "label" is in the returned map under its name, even when no
    occurrence of the name carries "declaration". *)
Theorem cpp_override (E : Type) (legend : SemanticTokensLegend)
  (editor : TextEditor E) (highlightGlobals highlightClasses : bool)
  (data : list N) (toks : list Token) :
  languageId editor = "cpp" ->
  tokensOf E legend editor data = Ok toks ->
  exists m,
    rangesByName E legend editor highlightGlobals highlightClasses data = Ok m
    /\ (forall d n b, JsMap.get n (forceDeclared d) = Some b -> b = true)
    /\ (forall d, JsMap.keys (forceDeclared d) = JsMap.keys d)
    /\ (forall tok,
          In tok toks ->
          kindIs (tKind tok) "parameter" = true ->
          inclusion highlightGlobals tok = true ->
          includes (tModifiers tok) "label" = false ->
          exists rs, JsMap.get (tName tok) m = Some rs /\ In (tRange tok) rs).
Proof.
  intros Hlang Htoks.
  destruct (rangesByName_get E legend editor highlightGlobals highlightClasses data toks Htoks)
    as (m & Hm & _ & Hget).
  exists m. split; [exact Hm |]. split; [exact forceDeclared_all_true |].
  split; [exact forceDeclared_keys |].
  intros tok Hin Hk Hi Hl. rewrite Hget.
  apply expectedAt_param_in.
  - apply in_paramRanges; [exact Hin |]. now apply isParamTok_intro.
  - now rewrite Hlang.
Qed.

Lemma cpp_override_witness :
  let editor := totalEditor sampleText "cpp" in
  let data := [0; 3; 3; 1; 0;  1; 3; 3; 1; 0]%N in
  let r0 := mkRange 0 (Num 3) 0 (Num 6) in
  let r1 := mkRange 1 (Num 3) 1 (Num 6) in
  languageId editor = "cpp"
  /\ tokensOf unit fullLegend editor data
     = Ok [mkToken r0 "xyz" (Some "parameter") []; mkToken r1 "xyz" (Some "parameter") []]
  /\ exists m, rangesByName unit fullLegend editor false false data = Ok m
               /\ exists rs, JsMap.get "xyz" m = Some rs /\ In r1 rs.
Proof.
  intros editor data r0 r1. split; [reflexivity |]. split; [reflexivity |].
  destruct (cpp_override unit fullLegend editor false false data _ eq_refl eq_refl)
    as (m & Hm & _ & _ & Hin).
  exists m. split; [exact Hm |].
  apply (Hin (mkToken r1 "xyz" (Some "parameter") [])); try reflexivity.
  right. now left.
Defined.

(** ** Classes *)

(** C5.  When [highlightClasses] is true, the range of every class-kind token
    is in the returned map under its name, whatever the inclusion test says:
    also for a name of length at most 2 that carries "global" while
    [highlightGlobals] is false. *)
Theorem class_folding (E : Type) (legend : SemanticTokensLegend)
  (editor : TextEditor E) (highlightGlobals : bool) (data : list N) (toks : list Token) :
  tokensOf E legend editor data = Ok toks ->
  exists m,
    rangesByName E legend editor highlightGlobals true data = Ok m
    /\ (forall tok,
          In tok toks ->
          kindIs (tKind tok) "class" = true ->
          exists rs, JsMap.get (tName tok) m = Some rs /\ In (tRange tok) rs).
Proof.
  intros Htoks.
  destruct (rangesByName_get E legend editor highlightGlobals true data toks Htoks)
    as (m & Hm & _ & Hget).
  exists m. split; [exact Hm |].
  intros tok Hin Hk. rewrite Hget.
  apply expectedAt_var_in, in_varRanges; [exact Hin |].
  unfold isVarTok. rewrite Hk. apply orb_true_r.
Qed.

Lemma class_folding_witness :
  let editor := totalEditor sampleText "python" in
  let data := [0; 0; 2; 2; 1]%N in
  let tok := mkToken (mkRange 0 (Num 0) 0 (Num 2)) "ab" (Some "class") ["global"] in
  tokensOf unit fullLegend editor data = Ok [tok]
  /\ inclusion false tok = false
  /\ exists m, rangesByName unit fullLegend editor false true data = Ok m
               /\ exists rs, JsMap.get "ab" m = Some rs /\ In (mkRange 0 (Num 0) 0 (Num 2)) rs.
Proof.
  intros editor data tok. split; [reflexivity |]. split; [reflexivity |].
  destruct (class_folding unit fullLegend editor false data [tok] eq_refl) as (m & Hm & Hin).
  exists m. split; [exact Hm |].
  apply (Hin tok); [now left | reflexivity].
Defined.

(** ** The merge *)

(** C6.  For a name with a declared parameter-classified occurrence, the
    entry of the returned map is the variable-classified ranges of the name
    in stream order followed by its parameter-classified ranges in stream
    order; in particular so when the name has variable-classified ranges. *)
Theorem merge_ordering (E : Type) (legend : SemanticTokensLegend)
  (editor : TextEditor E) (highlightGlobals highlightClasses : bool)
  (data : list N) (toks : list Token) (n : string) :
  tokensOf E legend editor data = Ok toks ->
  varRanges highlightGlobals highlightClasses n toks <> [] ->
  declaredIn highlightGlobals n toks = true ->
  exists m,
    rangesByName E legend editor highlightGlobals highlightClasses data = Ok m
    /\ JsMap.get n m
       = Some (varRanges highlightGlobals highlightClasses n toks
               ++ paramRanges highlightGlobals n toks).
Proof.
  intros Htoks _ Hd.
  destruct (rangesByName_get E legend editor highlightGlobals highlightClasses data toks Htoks)
    as (m & Hm & _ & Hget).
  exists m. split; [exact Hm |]. rewrite Hget. unfold expectedAt. rewrite Hd, orb_true_r.
  destruct (paramRanges highlightGlobals n toks) eqn:Hp; [| reflexivity].
  apply declaredIn_elim in Hd. destruct Hd as (tok & Hin & Hpt & <- & _).
  pose proof (in_paramRanges highlightGlobals tok toks Hin Hpt) as Hr.
  rewrite Hp in Hr. destruct Hr.
Qed.

Lemma merge_ordering_witness :
  let editor := totalEditor sampleText "python" in
  let data := [0; 3; 3; 1; 0;  1; 3; 3; 0; 0;  1; 3; 3; 1; 2;  1; 3; 3; 0; 0]%N in
  let r i := mkRange i (Num 3) i (Num 6) in
  tokensOf unit fullLegend editor data
  = Ok [mkToken (r 0%N) "xyz" (Some "parameter") [];
        mkToken (r 1%N) "xyz" (Some "variable") [];
        mkToken (r 2%N) "xyz" (Some "parameter") ["declaration"];
        mkToken (r 3%N) "xyz" (Some "variable") []]
  /\ exists m, rangesByName unit fullLegend editor false false data = Ok m
               /\ JsMap.get "xyz" m = Some ([r 1%N; r 3%N] ++ [r 0%N; r 2%N]).
Proof.
  intros editor data r. split; [reflexivity |].
  refine (merge_ordering unit fullLegend editor false false data _ "xyz" eq_refl _ eq_refl).
  discriminate.
Defined.

(** ** Undeclared parameters *)

(** C10.  For a name none of whose parameter-classified occurrences carries
    "declaration" (and a [languageId] other than "cpp"), line 127 removes
    the entry of the name from [accumulatorParam] and nothing else: the
    entry of the name in the returned map is its entry in [accumulatorVar]
    at the end of the loop, that is its variable-classified ranges in stream
    order, and the name is a key of the result as soon as it has one. *)
Theorem undeclared_discard_frame (E : Type) (legend : SemanticTokensLegend)
  (editor : TextEditor E) (highlightGlobals highlightClasses : bool)
  (data : list N) (toks : list Token) (n : string) :
  tokensOf E legend editor data = Ok toks ->
  languageId editor <> "cpp" ->
  declaredIn highlightGlobals n toks = false ->
  exists m,
    rangesByName E legend editor highlightGlobals highlightClasses data = Ok m
    /\ JsMap.get n m
       = JsMap.get n (accumulatorVar
                        (classifyAll highlightGlobals highlightClasses toks emptyAcc))
    /\ JsMap.get n m = nonEmpty (varRanges highlightGlobals highlightClasses n toks)
    /\ (varRanges highlightGlobals highlightClasses n toks <> [] -> JsMap.has n m = true)
    /\ (forall p v, reconcileEntry (p, v) (n, false) = (JsMap.delete n p, v)).
Proof.
  intros Htoks Hlang Hd.
  destruct (rangesByName_get E legend editor highlightGlobals highlightClasses data toks Htoks)
    as (m & Hm & _ & Hget).
  assert (Hn : JsMap.get n m = nonEmpty (varRanges highlightGlobals highlightClasses n toks)).
  { rewrite Hget. apply expectedAt_undeclared; [| exact Hd]. now apply String.eqb_neq. }
  exists m. split; [exact Hm |]. split; [| split; [exact Hn | split]].
  - rewrite Hn, classifyAll_var. cbn [emptyAcc accumulatorVar JsMap.get JsMap.empty].
    now destruct (varRanges highlightGlobals highlightClasses n toks).
  - intros Hne. unfold JsMap.has. rewrite Hn.
    destruct (varRanges highlightGlobals highlightClasses n toks); [now destruct Hne | reflexivity].
  - reflexivity.
Qed.

Lemma undeclared_discard_frame_witness :
  let editor := totalEditor sampleText "python" in
  let data := [0; 3; 3; 1; 0;  1; 3; 3; 0; 0;  1; 3; 3; 1; 0;  1; 3; 3; 0; 0]%N in
  let r i := mkRange i (Num 3) i (Num 6) in
  tokensOf unit fullLegend editor data
  = Ok [mkToken (r 0%N) "xyz" (Some "parameter") [];
        mkToken (r 1%N) "xyz" (Some "variable") [];
        mkToken (r 2%N) "xyz" (Some "parameter") [];
        mkToken (r 3%N) "xyz" (Some "variable") []]
  /\ languageId editor <> "cpp"
  /\ exists m, rangesByName unit fullLegend editor false false data = Ok m
               /\ JsMap.get "xyz" m = Some [r 1%N; r 3%N]
               /\ JsMap.has "xyz" m = true.
Proof.
  intros editor data r.
  assert (Hlang : languageId editor <> "cpp") by discriminate.
  split; [reflexivity |]. split; [exact Hlang |].
  destruct (undeclared_discard_frame unit fullLegend editor false false data _ "xyz"
              eq_refl Hlang eq_refl) as (m & Hm & _ & Hget & Hhas & _).
  exists m. split; [exact Hm |]. split; [exact Hget |].
  apply Hhas. discriminate.
Defined.

(** * More on the function *)

(** ** Streams cut at a record boundary *)

Lemma length_mod5_step (n : nat) : (S (S (S (S (S n)))) mod 5 = n mod 5)%nat.
Proof.
  replace (S (S (S (S (S n))))) with (n + 1 * 5)%nat by lia.
  apply Nat.Div0.mod_add.
Qed.

Lemma records_app (data1 data2 : list N) :
  (List.length data1 mod 5 = 0)%nat ->
  records (data1 ++ data2) = records data1 ++ records data2.
Proof.
  induction data1 as [| a | a b | a b c | a b c d | a b c d e rest IH] using list_ind5;
    intros Hlen; try discriminate Hlen; [reflexivity |].
  cbn [List.length] in Hlen. rewrite length_mod5_step in Hlen.
  change ((a :: b :: c :: d :: e :: rest) ++ data2)
    with (a :: b :: c :: d :: e :: (rest ++ data2)).
  cbn [records app]. now rewrite IH.
Qed.

(** X4. Cut at a record boundary, the loop on a stream is the loop on the
    first part followed by the loop on the second part from the state the
    first one ends in; an exception in the first part is the outcome, and
    the second part is not looked at. *)
Theorem loop_app (E : Type) (legend : SemanticTokensLegend) (editor : TextEditor E)
  (highlightGlobals highlightClasses : bool) (data1 data2 : list N) :
  (List.length data1 mod 5 = 0)%nat ->
  forall st,
    loop E legend editor highlightGlobals highlightClasses (data1 ++ data2) st
    = (let* st1 := loop E legend editor highlightGlobals highlightClasses data1 st in
       loop E legend editor highlightGlobals highlightClasses data2 st1).
Proof.
  induction data1 as [| a | a b | a b c | a b c d | a b c d e rest IH] using list_ind5;
    intros Hlen st; try discriminate Hlen; [reflexivity |].
  cbn [List.length] in Hlen. rewrite length_mod5_step in Hlen.
  change ((a :: b :: c :: d :: e :: rest) ++ data2)
    with (a :: b :: c :: d :: e :: (rest ++ data2)).
  change (loop E legend editor highlightGlobals highlightClasses
            (a :: b :: c :: d :: e :: (rest ++ data2)) st)
    with (let* st' := loopBody E legend editor highlightGlobals highlightClasses
                        a (Some b) (Some c) (Some d) (Some e) st in
          loop E legend editor highlightGlobals highlightClasses (rest ++ data2) st').
  change (loop E legend editor highlightGlobals highlightClasses
            (a :: b :: c :: d :: e :: rest) st)
    with (let* st' := loopBody E legend editor highlightGlobals highlightClasses
                        a (Some b) (Some c) (Some d) (Some e) st in
          loop E legend editor highlightGlobals highlightClasses rest st').
  destruct (loopBody E legend editor highlightGlobals highlightClasses
              a (Some b) (Some c) (Some d) (Some e) st) as [st' | e0]; cbn [bind].
  - now apply IH.
  - reflexivity.
Qed.

Lemma loop_app_witness :
  let data1 := [0; 0; 2; 0; 0;  0; 3; 3; 1; 2]%N in
  let data2 := [1; 0; 2; 0; 0;  0; 3; 3; 0; 0]%N in
  (List.length data1 mod 5 = 0)%nat
  /\ loop TextError fullLegend closingEditor true true (data1 ++ data2) initState
     = (let* st1 := loop TextError fullLegend closingEditor true true data1 initState in
        loop TextError fullLegend closingEditor true true data2 st1).
Proof.
  intros data1 data2. split; [reflexivity |].
  exact (loop_app TextError fullLegend closingEditor true true data1 data2 eq_refl initState).
Defined.

(** ** One token for every slice *)

Lemma length_rangesFrom (rs : list Record5) : forall line column,
  List.length (rangesFrom line column rs) = List.length rs.
Proof.
  induction rs as [|[[[[deltaLine deltaColumn] len] kindIndex] modifierIndex] rs IH];
    intros line column; [reflexivity |].
  cbn [rangesFrom]. unfold decodeRange. cbn [List.length]. now rewrite IH.
Qed.

Lemma length_records (data : list N) :
  (List.length data <= 5 * List.length (records data) < List.length data + 5)%nat.
Proof.
  induction data as [| a | a b | a b c | a b c d | a b c d e rest IH] using list_ind5;
    cbn [records List.length] in *; lia.
Qed.

(** X3. The loop runs once for every started slice of five numbers: a
    stream of [n] numbers gives the least number of tokens whose five-fold
    is at least [n], so that a last slice of one to four numbers is a token
    too; when no [getText] throws, that many tokens are classified. *)
Theorem one_token_per_slice (data : list N) :
  (List.length data <= 5 * List.length (rangesOf data) < List.length data + 5)%nat
  /\ (forall E legend (editor : TextEditor E) toks,
        tokensOf E legend editor data = Ok toks ->
        List.length toks = List.length (rangesOf data)).
Proof.
  unfold rangesOf. split.
  - rewrite length_rangesFrom. apply length_records.
  - intros E legend editor toks Htoks.
    pose proof (tokensFrom_cases E legend editor (records data) 0 (Num 0)) as H.
    unfold tokensOf in Htoks. rewrite Htoks in H. destruct H as [Hm _].
    now rewrite <- Hm, length_map.
Qed.

Lemma one_token_per_slice_witness :
  let data := [0; 0; 2; 0; 0;  0; 3; 3; 1]%N in
  tokensOf unit fullLegend (totalEditor sampleText "python") data
  = Ok [mkToken (mkRange 0 (Num 0) 0 (Num 2)) "ab" (Some "variable") [];
        mkToken (mkRange 0 (Num 3) 0 (Num 6)) "xyz" (Some "parameter") []]
  /\ List.length (rangesOf data) = 2%nat.
Proof.
  intros data. split; [reflexivity |].
  exact (eq_sym (proj2 (one_token_per_slice data) unit fullLegend
                   (totalEditor sampleText "python") _ eq_refl)).
Defined.

(** ** The positions go up *)





(** ** Decoding what the comment encodes *)




(** ** The modifiers of a token *)

Lemma in_filterIndex {A : Type} (p : nat -> bool) (l : list A) : forall i0 x,
  In x (filterIndex p i0 l)
  <-> exists j, nth_error l j = Some x /\ p (i0 + j)%nat = true.
Proof.
  induction l as [|y l IH]; intros i0 x.
  - split; [intros [] | intros ([|j] & Hj & _); discriminate Hj].
  - cbn [filterIndex]. split.
    + intros Hin.
      assert (Hcases : (p i0 = true /\ y = x) \/ In x (filterIndex p (S i0) l)).
      { destruct (p i0) eqn:Hp; [destruct Hin as [-> | Hin] |]; auto. }
      destruct Hcases as [[Hp ->] | Hin'].
      * exists 0%nat. now rewrite Nat.add_0_r.
      * apply IH in Hin'. destruct Hin' as (j & Hj & Hp).
        exists (S j). split; [exact Hj |]. now rewrite Nat.add_succ_r.
    + intros ([|j] & Hj & Hp).
      * injection Hj as ->. rewrite Nat.add_0_r in Hp. rewrite Hp. now left.
      * assert (Hin : In x (filterIndex p (S i0) l)).
        { apply IH. exists j. split; [exact Hj |]. now rewrite Nat.add_succ_r in Hp. }
        destruct (p i0); [now right | exact Hin].
Qed.

(** X5. A name of [legend.tokenModifiers] is among the modifiers of a token
    exactly when it stands at an index [i] such that bit [i mod 32] of the
    low 32 bits of [modifierIndex] is set: the shift of line 81 takes its
    count modulo 32, so that in a legend of more than 32 modifiers the
    modifier of index 32 goes with bit 0. *)
Theorem modifier_bits (legend : SemanticTokensLegend) (modifierIndex : N) (x : string) :
  In x (modifiersOf legend (Some modifierIndex))
  <-> exists i, nth_error (tokenModifiers legend) i = Some x
                /\ N.testbit (modifierIndex mod 2 ^ 32) (N.of_nat (i mod 32)) = true.
Proof.
  rewrite modifiersOf_testbit. apply in_filterIndex.
Qed.

Lemma modifier_bits_witness :
  let legend := mkLegend ["variable"] (repeat "static" 32 ++ ["global"]) in
  (exists i, nth_error (tokenModifiers legend) i = Some "global"
             /\ N.testbit (1 mod 2 ^ 32) (N.of_nat (i mod 32)) = true)
  /\ In "global" (modifiersOf legend (Some 1%N)).
Proof.
  intros legend.
  assert (H : exists i, nth_error (tokenModifiers legend) i = Some "global"
                        /\ N.testbit (1 mod 2 ^ 32) (N.of_nat (i mod 32)) = true).
  { exists 32%nat. split; reflexivity. }
  split; [exact H |].
  exact (proj2 (modifier_bits legend 1%N "global") H).
Defined.

(** ** What the returned map holds *)

Section Contents.

Variable E : Type.
Variable legend : SemanticTokensLegend.
Variable editor : TextEditor E.
Variables highlightGlobals highlightClasses : bool.

Lemma rangesByName_Ok_inv (data : list N) (m : JsMap.t (list Range)) :
  rangesByName E legend editor highlightGlobals highlightClasses data = Ok m ->
  exists toks,
    tokensOf E legend editor data = Ok toks
    /\ m = finalize E editor (classifyAll highlightGlobals highlightClasses toks emptyAcc)
    /\ Forall (fun tok => getText editor (tRange tok) = Ok (tName tok)) toks.
Proof.
  rewrite rangesByName_tokens. unfold tokensOf.
  pose proof (tokensFrom_cases E legend editor (records data) 0 (Num 0)) as H.
  destruct (tokensFrom E legend editor 0 (Num 0) (records data)) as [toks | e];
    cbn [bind]; intros Hm; [| discriminate].
  exists toks. destruct H as [_ Hf]. split; [reflexivity |]. split; [congruence | exact Hf].
Qed.

Lemma in_expectedAt_iff (lang n : string) (toks : list Token) (r : Range) :
  (exists rs, expectedAt highlightGlobals highlightClasses lang n toks = Some rs /\ In r rs)
  <-> exists tok,
        In tok toks /\ tName tok = n /\ tRange tok = r
        /\ (isVarTok highlightGlobals highlightClasses tok = true
            \/ (isParamTok highlightGlobals tok = true
                /\ String.eqb lang "cpp" || declaredIn highlightGlobals n toks = true)).
Proof.
  assert (Hv : In r (varRanges highlightGlobals highlightClasses n toks)
               <-> exists tok, In tok toks /\ tName tok = n /\ tRange tok = r
                               /\ isVarTok highlightGlobals highlightClasses tok = true).
  { unfold varRanges. rewrite in_map_iff. split.
    - intros (tok & Hr & Hin). apply filter_In in Hin. destruct Hin as [Hin Hc].
      apply andb_prop in Hc. destruct Hc as [Hc Hn]. apply String.eqb_eq in Hn. eauto 6.
    - intros (tok & Hin & Hn & Hr & Hc). exists tok. split; [exact Hr |].
      apply filter_In. split; [exact Hin |]. unfold named.
      rewrite Hc, Hn. apply String.eqb_refl. }
  assert (Hp : In r (paramRanges highlightGlobals n toks)
               <-> exists tok, In tok toks /\ tName tok = n /\ tRange tok = r
                               /\ isParamTok highlightGlobals tok = true).
  { unfold paramRanges. rewrite in_map_iff. split.
    - intros (tok & Hr & Hin). apply filter_In in Hin. destruct Hin as [Hin Hc].
      apply andb_prop in Hc. destruct Hc as [Hc Hn]. apply String.eqb_eq in Hn. eauto 6.
    - intros (tok & Hin & Hn & Hr & Hc). exists tok. split; [exact Hr |].
      apply filter_In. split; [exact Hin |]. unfold named.
      rewrite Hc, Hn. apply String.eqb_refl. }
  split.
  - intros (rs & Hrs & Hin). unfold expectedAt in Hrs.
    assert (Hcases : In r (varRanges highlightGlobals highlightClasses n toks)
                     \/ (In r (paramRanges highlightGlobals n toks)
                         /\ String.eqb lang "cpp" || declaredIn highlightGlobals n toks = true)).
    { assert (Hne : forall vs, nonEmpty vs = Some rs -> vs = rs)
        by (intros [|v vs] Hvs; [discriminate | now injection Hvs]).
      destruct (paramRanges highlightGlobals n toks) as [|p ps];
        [apply Hne in Hrs; subst rs; now left |].
      destruct (String.eqb lang "cpp" || declaredIn highlightGlobals n toks).
      - injection Hrs as <-. apply in_app_or in Hin. tauto.
      - apply Hne in Hrs. subst rs. now left. }
    destruct Hcases as [Hin' | [Hin' Hd]].
    + apply Hv in Hin'. destruct Hin' as (tok & ? & ? & ? & ?). exists tok. auto.
    + apply Hp in Hin'. destruct Hin' as (tok & ? & ? & ? & ?). exists tok. auto 6.
  - intros (tok & Hin & Hn & Hr & [Hc | [Hc Hd]]).
    + apply expectedAt_var_in, Hv. eauto 6.
    + apply expectedAt_param_in; [apply Hp; eauto 6 | exact Hd].
Qed.

(** X7. A range is in the returned map under a name exactly when it is the
    range of a token of the stream with that name which is classified as
    variable (variable kind passing the test of line 82, or class kind with
    [highlightClasses]), or classified as parameter while the language is
    "cpp" or some parameter-classified token of the name carries
    "declaration". *)
Theorem highlighted_ranges (data : list N) (toks : list Token) :
  tokensOf E legend editor data = Ok toks ->
  exists m,
    rangesByName E legend editor highlightGlobals highlightClasses data = Ok m
    /\ forall n r,
         (exists rs, JsMap.get n m = Some rs /\ In r rs)
         <-> exists tok,
               In tok toks /\ tName tok = n /\ tRange tok = r
               /\ (isVarTok highlightGlobals highlightClasses tok = true
                   \/ (isParamTok highlightGlobals tok = true
                       /\ (languageId editor = "cpp"
                           \/ exists tok',
                                In tok' toks /\ tName tok' = n
                                /\ isParamTok highlightGlobals tok' = true
                                /\ includes (tModifiers tok') "declaration" = true))).
Proof.
  intros Htoks.
  destruct (rangesByName_get E legend editor highlightGlobals highlightClasses data toks Htoks)
    as (m & Hm & _ & Hget).
  exists m. split; [exact Hm |]. intros n r. rewrite Hget, in_expectedAt_iff.
  split; intros (tok & Hin & Hn & Hr & Hc); exists tok;
    (split; [exact Hin |]); (split; [exact Hn |]); (split; [exact Hr |]);
    (destruct Hc as [Hc | [Hc Hd]]; [now left | right; split; [exact Hc |]]).
  - apply orb_prop in Hd. destruct Hd as [Hd | Hd].
    + left. now apply String.eqb_eq.
    + right. apply declaredIn_elim in Hd. destruct Hd as (tok' & ? & ? & ? & ?).
      exists tok'. auto.
  - destruct Hd as [Hd | (tok' & Hin' & Hn' & Hp' & Hd')].
    + rewrite Hd. reflexivity.
    + rewrite <- Hn', (declaredIn_intro highlightGlobals tok' toks Hin' Hp' Hd').
      apply orb_true_r.
Qed.

(** X8. Every range of the returned map stands under its own text: for a
    range [r] in the entry of [n], [getText] returns [n] on [r].  No entry
    of the returned map is an empty array. *)
Theorem entries_hold_their_text (data : list N) (m : JsMap.t (list Range))
  (n : string) (rs : list Range) :
  rangesByName E legend editor highlightGlobals highlightClasses data = Ok m ->
  JsMap.get n m = Some rs ->
  rs <> [] /\ forall r, In r rs -> getText editor r = Ok n.
Proof.
  intros Hm Hrs. apply rangesByName_Ok_inv in Hm. destruct Hm as (toks & _ & -> & Hf).
  rewrite finalize_get in Hrs. split.
  - intros ->. unfold expectedAt in Hrs.
    assert (Hne : forall vs, nonEmpty vs <> Some []) by (intros [|v vs]; discriminate).
    destruct (paramRanges highlightGlobals n toks) as [|p ps]; [now apply Hne in Hrs |].
    destruct (String.eqb (languageId editor) "cpp" || declaredIn highlightGlobals n toks);
      [| now apply Hne in Hrs].
    injection Hrs as Hrs. apply app_eq_nil in Hrs. destruct Hrs as [_ Hrs]. discriminate.
  - intros r Hin.
    assert (Hex : exists rs', expectedAt highlightGlobals highlightClasses
                                (languageId editor) n toks = Some rs' /\ In r rs') by eauto.
    apply in_expectedAt_iff in Hex. destruct Hex as (tok & Hint & <- & <- & _).
    rewrite Forall_forall in Hf. now apply Hf.
Qed.

End Contents.

Lemma highlighted_ranges_witness :
  let editor := totalEditor sampleText "python" in
  let data := [0; 3; 3; 1; 0;  1; 3; 3; 1; 2]%N in
  let r0 := mkRange 0 (Num 3) 0 (Num 6) in
  let r1 := mkRange 1 (Num 3) 1 (Num 6) in
  tokensOf unit fullLegend editor data
  = Ok [mkToken r0 "xyz" (Some "parameter") []; mkToken r1 "xyz" (Some "parameter") ["declaration"]]
  /\ exists m, rangesByName unit fullLegend editor false false data = Ok m
               /\ exists rs, JsMap.get "xyz" m = Some rs /\ In r0 rs.
Proof.
  intros editor data r0 r1. split; [reflexivity |].
  destruct (highlighted_ranges unit fullLegend editor false false data _ eq_refl)
    as (m & Hm & Hiff).
  exists m. split; [exact Hm |]. apply Hiff.
  exists (mkToken r0 "xyz" (Some "parameter") []).
  split; [now left |]. split; [reflexivity |]. split; [reflexivity |].
  right. split; [reflexivity |]. right.
  exists (mkToken r1 "xyz" (Some "parameter") ["declaration"]).
  split; [right; now left |]. repeat split.
Defined.

Lemma entries_hold_their_text_witness :
  let editor := totalEditor sampleText "python" in
  let data := [0; 0; 2; 0; 0;  0; 3; 3; 0; 0]%N in
  let r1 := mkRange 0 (Num 3) 0 (Num 6) in
  rangesByName unit fullLegend editor true false data
  = Ok [("ab", [mkRange 0 (Num 0) 0 (Num 2)]); ("xyz", [r1])]
  /\ [r1] <> []
  /\ getText editor r1 = Ok "xyz".
Proof.
  intros editor data r1. split; [reflexivity |].
  destruct (entries_hold_their_text unit fullLegend editor true false data _ "xyz" [r1]
              eq_refl eq_refl) as [Hne Htext].
  split; [exact Hne |]. apply Htext. now left.
Defined.

(** ** Tokens of other kinds *)

Lemma classify_other_kind highlightGlobals highlightClasses tok a :
  kindIs (tKind tok) "variable" || kindIs (tKind tok) "parameter"
  || kindIs (tKind tok) "class" = false ->
  classify highlightGlobals highlightClasses tok a = a.
Proof.
  intros H. apply orb_false_elim in H. destruct H as [H Hc].
  apply orb_false_elim in H. destruct H as [Hv Hp].
  unfold classify, classifyClass, classifyPrimary.
  rewrite Hv, Hp, Hc, andb_false_r. cbn [andb].
  now destruct (inclusion highlightGlobals tok).
Qed.

Lemma kindOf_out_of_range (legend : SemanticTokensLegend) (kindIndex : N) :
  (List.length (tokenTypes legend) <= N.to_nat kindIndex)%nat ->
  kindOf legend (Some kindIndex) = None.
Proof. intros H. now apply nth_error_None. Qed.

(** X6. Only the tokens of kind variable, parameter or class count: the
    returned map is the one built from these tokens alone, the tokens of any
    other kind, or of no kind because their [kindIndex] lies outside
    [legend.tokenTypes], being skipped. *)
Theorem other_kinds_ignored (E : Type) (legend : SemanticTokensLegend)
  (editor : TextEditor E) (highlightGlobals highlightClasses : bool)
  (data : list N) (toks : list Token) :
  tokensOf E legend editor data = Ok toks ->
  rangesByName E legend editor highlightGlobals highlightClasses data
  = Ok (finalize E editor
          (classifyAll highlightGlobals highlightClasses
             (filter (fun tok => kindIs (tKind tok) "variable"
                                 || kindIs (tKind tok) "parameter"
                                 || kindIs (tKind tok) "class") toks)
             emptyAcc))
  /\ (forall kindIndex range name,
        (List.length (tokenTypes legend) <= N.to_nat kindIndex)%nat ->
        forall modifierIndex,
          filter (fun tok => kindIs (tKind tok) "variable"
                             || kindIs (tKind tok) "parameter"
                             || kindIs (tKind tok) "class")
            [mkToken range name (kindOf legend (Some kindIndex))
               (modifiersOf legend modifierIndex)]
          = []).
Proof.
  intros Htoks. split.
  - rewrite rangesByName_tokens, Htoks. cbn [bind]. do 2 f_equal.
    clear Htoks. generalize emptyAcc. unfold classifyAll.
    induction toks as [|tok toks' IH]; intros a; [reflexivity |].
    cbn [filter fold_left].
    destruct (kindIs (tKind tok) "variable" || kindIs (tKind tok) "parameter"
              || kindIs (tKind tok) "class") eqn:Hk.
    + apply IH.
    + rewrite classify_other_kind by exact Hk. apply IH.
  - intros kindIndex range name Hk modifierIndex.
    cbn [filter tKind]. now rewrite kindOf_out_of_range.
Qed.

Lemma other_kinds_ignored_witness :
  let editor := totalEditor sampleText "python" in
  let data := [0; 0; 2; 7; 0;  0; 3; 3; 0; 0]%N in
  let r1 := mkRange 0 (Num 3) 0 (Num 6) in
  tokensOf unit fullLegend editor data
  = Ok [mkToken (mkRange 0 (Num 0) 0 (Num 2)) "ab" None [];
        mkToken r1 "xyz" (Some "variable") []]
  /\ rangesByName unit fullLegend editor true true data
     = Ok (finalize unit editor
             (classifyAll true true [mkToken r1 "xyz" (Some "variable") []] emptyAcc)).
Proof.
  intros editor data r1. split; [reflexivity |].
  exact (proj1 (other_kinds_ignored unit fullLegend editor true true data _ eq_refl)).
Defined.

(** ** The settings *)

Lemma tokensFrom_settings (E : Type) (legend legend' : SemanticTokensLegend)
  (editor : TextEditor E) (lang : string) (rs : list Record5) : forall line column,
  match tokensFrom E legend editor line column rs,
        tokensFrom E legend' (withLanguage editor lang) line column rs with
  | Ok toks, Ok toks' => map tRange toks = map tRange toks'
  | Err e, Err e' => e = e'
  | _, _ => False
  end.
Proof.
  induction rs as [|[[[[deltaLine deltaColumn] len] kindIndex] modifierIndex] rs IH];
    intros line column; [reflexivity |].
  cbn [tokensFrom]. unfold decodeRange. cbn [getText withLanguage].
  match goal with |- context [getText editor ?r] =>
    destruct (getText editor r) as [name | e] end; cbn [bind]; [| reflexivity].
  match goal with |- context [tokensFrom E legend editor ?l ?c rs] =>
    specialize (IH l c);
    destruct (tokensFrom E legend editor l c rs),
             (tokensFrom E legend' (withLanguage editor lang) l c rs) end;
    cbn [bind map tRange]; try exact IH. now rewrite IH.
Qed.

Lemma tokensOf_withLanguage (E : Type) (legend : SemanticTokensLegend)
  (editor : TextEditor E) (lang : string) (data : list N) :
  tokensOf E legend (withLanguage editor lang) data = tokensOf E legend editor data.
Proof.
  unfold tokensOf. generalize 0%N (Num 0).
  induction (records data)
    as [|[[[[deltaLine deltaColumn] len] kindIndex] modifierIndex] rs IH];
    intros line column; [reflexivity |].
  cbn [tokensFrom]. unfold decodeRange. cbn [getText withLanguage].
  match goal with |- context [getText editor ?r] =>
    destruct (getText editor r) as [name | e] end; cbn [bind]; [| reflexivity].
  now rewrite IH.
Qed.

(** X12. Whether the function throws, and what, depends on the stream and on
    the document only: with another legend, other flags and another
    language the same exception comes out. *)
Theorem failure_independent_of_settings (E : Type)
  (legend legend' : SemanticTokensLegend) (editor : TextEditor E) (lang : string)
  (highlightGlobals highlightClasses highlightGlobals' highlightClasses' : bool)
  (data : list N) (e : E) :
  rangesByName E legend editor highlightGlobals highlightClasses data = Err e
  <-> rangesByName E legend' (withLanguage editor lang) highlightGlobals' highlightClasses'
        data = Err e.
Proof.
  rewrite !rangesByName_tokens. unfold tokensOf.
  pose proof (tokensFrom_settings E legend legend' editor lang (records data) 0 (Num 0)) as H.
  destruct (tokensFrom E legend editor 0 (Num 0) (records data)),
           (tokensFrom E legend' (withLanguage editor lang) 0 (Num 0) (records data));
    cbn [bind]; try destruct H; split; congruence.
Qed.

Lemma failure_independent_of_settings_witness :
  let data := [0; 0; 2; 0; 0;  1; 0; 2; 0; 0]%N in
  rangesByName TextError fullLegend closingEditor true true data = Err SourceUnavailable
  /\ rangesByName TextError exampleLegend (withLanguage closingEditor "cpp") false false data
     = Err SourceUnavailable.
Proof.
  intros data. split; [reflexivity |].
  exact (proj1 (failure_independent_of_settings TextError fullLegend exampleLegend
                  closingEditor "cpp" true true false false data SourceUnavailable) eq_refl).
Defined.

Section Settings.

Variable E : Type.
Variable legend : SemanticTokensLegend.
Variable editor : TextEditor E.

Lemma inclusion_mono (g g' : bool) tok :
  implb g g' = true -> inclusion g tok = true -> inclusion g' tok = true.
Proof.
  unfold inclusion. destruct g, g'; cbn; auto. discriminate.
Qed.

Lemma isVarTok_mono (g g' c c' : bool) tok :
  implb g g' = true -> implb c c' = true ->
  isVarTok g c tok = true -> isVarTok g' c' tok = true.
Proof.
  intros Hg Hc. unfold isVarTok. intros H. apply orb_prop in H.
  destruct H as [H | H]; apply andb_prop in H; destruct H as [H1 H2].
  - now rewrite (inclusion_mono g g' tok Hg H1), H2.
  - rewrite H2. destruct c, c'; try discriminate. apply orb_true_r.
Qed.

Lemma isParamTok_mono (g g' : bool) tok :
  implb g g' = true -> isParamTok g tok = true -> isParamTok g' tok = true.
Proof.
  intros Hg. unfold isParamTok. intros H.
  apply andb_prop in H. destruct H as [H Hl]. apply andb_prop in H. destruct H as [Hi Hk].
  now rewrite (inclusion_mono g g' tok Hg Hi), Hk, Hl.
Qed.

Lemma declaredIn_mono (g g' : bool) n toks :
  implb g g' = true -> declaredIn g n toks = true -> declaredIn g' n toks = true.
Proof.
  intros Hg Hd. apply declaredIn_elim in Hd. destruct Hd as (tok & Hin & Hp & <- & Hd).
  apply declaredIn_intro; auto. eapply isParamTok_mono; eauto.
Qed.

(** X10. Switching [highlightGlobals] or [highlightClasses] on takes nothing
    away: the function still returns, and every range of the map returned
    with the flags off is in the map returned with them on, under the same
    name. *)
Theorem flags_only_add (highlightGlobals highlightClasses
  highlightGlobals' highlightClasses' : bool) (data : list N) (m : JsMap.t (list Range)) :
  implb highlightGlobals highlightGlobals' = true ->
  implb highlightClasses highlightClasses' = true ->
  rangesByName E legend editor highlightGlobals highlightClasses data = Ok m ->
  exists m',
    rangesByName E legend editor highlightGlobals' highlightClasses' data = Ok m'
    /\ forall n rs r,
         JsMap.get n m = Some rs -> In r rs ->
         exists rs', JsMap.get n m' = Some rs' /\ In r rs'.
Proof.
  intros Hg Hc Hm. apply rangesByName_Ok_inv in Hm. destruct Hm as (toks & Htoks & -> & _).
  destruct (rangesByName_get E legend editor highlightGlobals' highlightClasses' data toks
              Htoks) as (m' & Hm' & _ & Hget').
  exists m'. split; [exact Hm' |]. intros n rs r Hrs Hin.
  rewrite finalize_get in Hrs. rewrite Hget'.
  apply in_expectedAt_iff.
  assert (Hex : exists rs0, expectedAt highlightGlobals highlightClasses
                              (languageId editor) n toks = Some rs0 /\ In r rs0) by eauto.
  apply in_expectedAt_iff in Hex. destruct Hex as (tok & Hint & Hn & Hr & Hcl).
  exists tok. split; [exact Hint |]. split; [exact Hn |]. split; [exact Hr |].
  destruct Hcl as [Hv | [Hp Hd]].
  - left. eapply isVarTok_mono; eauto.
  - right. split; [eapply isParamTok_mono; eauto |].
    apply orb_prop in Hd. destruct Hd as [-> | Hd]; [reflexivity |].
    rewrite (declaredIn_mono _ _ n toks Hg Hd). apply orb_true_r.
Qed.

(** X11. With the language "cpp" every entry is kept and only grows at its
    end: the function returns for "cpp" when it returns for the language of
    the editor, and the entry of a name for "cpp" starts with the ranges of
    its entry for that language. *)
Theorem cpp_only_appends (highlightGlobals highlightClasses : bool) (data : list N)
  (m : JsMap.t (list Range)) :
  rangesByName E legend editor highlightGlobals highlightClasses data = Ok m ->
  exists m',
    rangesByName E legend (withLanguage editor "cpp") highlightGlobals highlightClasses data
    = Ok m'
    /\ forall n rs,
         JsMap.get n m = Some rs ->
         exists rs', JsMap.get n m' = Some (rs ++ rs').
Proof.
  intros Hm. apply rangesByName_Ok_inv in Hm. destruct Hm as (toks & Htoks & -> & _).
  rewrite <- (tokensOf_withLanguage E legend editor "cpp") in Htoks.
  destruct (rangesByName_get E legend (withLanguage editor "cpp") highlightGlobals
              highlightClasses data toks Htoks) as (m' & Hm' & _ & Hget').
  exists m'. split; [exact Hm' |]. intros n rs Hrs.
  rewrite finalize_get in Hrs. rewrite Hget'. unfold expectedAt in *.
  cbn [languageId withLanguage String.eqb Ascii.eqb Bool.eqb orb andb].
  assert (Hne : forall vs, nonEmpty vs = Some rs -> vs = rs)
    by (intros [|v vs] Hvs; [discriminate | now injection Hvs]).
  destruct (paramRanges highlightGlobals n toks) as [|p ps].
  - exists []. rewrite app_nil_r. exact Hrs.
  - change (String.eqb "cpp" "cpp") with true. cbn [orb].
    destruct (String.eqb (languageId editor) "cpp" || declaredIn highlightGlobals n toks).
    + exists []. now rewrite app_nil_r.
    + apply Hne in Hrs. subst rs. eauto.
Qed.

End Settings.

Lemma flags_only_add_witness :
  let editor := totalEditor sampleText "python" in
  let data := [0; 0; 2; 2; 1;  0; 3; 3; 0; 0]%N in
  let r1 := mkRange 0 (Num 3) 0 (Num 6) in
  implb false true = true
  /\ rangesByName unit fullLegend editor false false data = Ok [("xyz", [r1])]
  /\ exists m', rangesByName unit fullLegend editor true true data = Ok m'
                /\ exists rs', JsMap.get "xyz" m' = Some rs' /\ In r1 rs'.
Proof.
  intros editor data r1. split; [reflexivity |]. split; [reflexivity |].
  destruct (flags_only_add unit fullLegend editor false false true true data _
              eq_refl eq_refl eq_refl) as (m' & Hm' & Hin).
  exists m'. split; [exact Hm' |].
  apply (Hin "xyz" [r1] r1); [reflexivity | now left].
Defined.

Lemma cpp_only_appends_witness :
  let editor := totalEditor sampleText "python" in
  let data := [0; 3; 3; 0; 0;  1; 3; 3; 1; 0]%N in
  let r0 := mkRange 0 (Num 3) 0 (Num 6) in
  rangesByName unit fullLegend editor false false data = Ok [("xyz", [r0])]
  /\ exists m', rangesByName unit fullLegend (withLanguage editor "cpp") false false data
                = Ok m'
                /\ exists rs', JsMap.get "xyz" m' = Some ([r0] ++ rs').
Proof.
  intros editor data r0. split; [reflexivity |].
  destruct (cpp_only_appends unit fullLegend editor false false data _ eq_refl)
    as (m' & Hm' & Hpre).
  exists m'. split; [exact Hm' |]. apply (Hpre "xyz" [r0]). reflexivity.
Defined.

(** ** The order of the keys of the returned map *)

Lemma has_among {V : Type} (n : string) (m : JsMap.t V) :
  JsMap.has n m = among (JsMap.keys m) n.
Proof.
  unfold JsMap.has, among. induction m as [|[k v] m IH]; [reflexivity |].
  cbn [JsMap.get JsMap.keys map fst existsb]. fold (JsMap.keys m).
  destruct (String.eqb n k); [reflexivity | exact IH].
Qed.

Lemma keys_set_addKey {V : Type} (n : string) (v : V) (m : JsMap.t V) :
  JsMap.keys (JsMap.set n v m) = addKey n (JsMap.keys m).
Proof. rewrite keys_set, has_among. reflexivity. Qed.

Lemma keys_pushRange (n : string) (r : Range) (m : JsMap.t (list Range)) :
  JsMap.keys (pushRange n r m) = addKey n (JsMap.keys m).
Proof.
  unfold pushRange. destruct (JsMap.get n m); apply keys_set_addKey.
Qed.

Lemma addKey_among (n : string) (l : list string) : among l n = true -> addKey n l = l.
Proof. unfold addKey. now intros ->. Qed.

Lemma among_addKey (n x : string) (l : list string) :
  among (addKey n l) x = among l x || String.eqb x n.
Proof.
  unfold addKey. destruct (among l n) eqn:Hn.
  - destruct (String.eqb x n) eqn:Hx; [| now rewrite orb_false_r].
    apply String.eqb_eq in Hx. subst. now rewrite Hn.
  - unfold among. rewrite existsb_app. cbn [existsb]. now rewrite orb_false_r.
Qed.

Lemma keys_markDeclared (n : string) (modifiers : list string) (d : JsMap.t bool) :
  JsMap.keys (markDeclared n modifiers d) = addKey n (JsMap.keys d).
Proof.
  unfold markDeclared.
  assert (H1 : JsMap.keys (if negb (JsMap.has n d) then JsMap.set n false d else d)
               = addKey n (JsMap.keys d)).
  { destruct (JsMap.has n d) eqn:Hh; cbn [negb]; [| apply keys_set_addKey].
    rewrite has_among in Hh. now rewrite addKey_among. }
  destruct (includes modifiers "declaration"); [| exact H1].
  rewrite keys_set_addKey, H1. apply addKey_among.
  rewrite among_addKey, String.eqb_refl. apply orb_true_r.
Qed.

Lemma filter_implied {A : Type} (f g : A -> bool) (l : list A) :
  (forall y, f y = true -> g y = true) -> filter f (filter g l) = filter f l.
Proof.
  intros H. induction l as [|y l IH]; [reflexivity |]. cbn [filter].
  destruct (g y) eqn:Hg; cbn [filter].
  - now rewrite IH.
  - destruct (f y) eqn:Hf; [| exact IH]. rewrite (H y Hf) in Hg. discriminate.
Qed.

Lemma filter_both {A : Type} (f g : A -> bool) (l : list A) :
  filter f (filter g l) = filter (fun y => g y && f y) l.
Proof.
  induction l as [|y l IH]; [reflexivity |]. cbn [filter].
  destruct (g y); cbn [filter andb]; now rewrite IH.
Qed.

Lemma fold_addKey (names : list string) : forall acc,
  fold_left (fun l k => addKey k l) names acc
  = acc ++ filter (fun n => negb (among acc n)) (firstOccurrences names).
Proof.
  induction names as [|x names IH]; intros acc.
  - cbn. now rewrite app_nil_r.
  - cbn [fold_left firstOccurrences filter]. rewrite IH.
    destruct (among acc x) eqn:Hx; cbn [negb].
    + rewrite (addKey_among x acc Hx). f_equal. symmetry. apply filter_implied.
      intros y Hy. destruct (String.eqb x y) eqn:Hxy; [| reflexivity].
      apply String.eqb_eq in Hxy. subst y. rewrite Hx in Hy. discriminate.
    + unfold addKey at 1. rewrite Hx, <- app_assoc. cbn [app]. do 2 f_equal.
      rewrite filter_both. apply filter_ext. intros y.
      rewrite among_addKey, negb_orb, (String.eqb_sym y x). apply andb_comm.
Qed.

Lemma filter_all {A : Type} (l : list A) : filter (fun _ => true) l = l.
Proof. induction l as [|y l IH]; [reflexivity |]. cbn [filter]. now rewrite IH. Qed.

Section KeyOrder.

Variables highlightGlobals highlightClasses : bool.

Lemma classify_keys_var tok a :
  JsMap.keys (accumulatorVar (classify highlightGlobals highlightClasses tok a))
  = if isVarTok highlightGlobals highlightClasses tok
    then addKey (tName tok) (JsMap.keys (accumulatorVar a))
    else JsMap.keys (accumulatorVar a).
Proof.
  unfold classify, classifyClass, classifyPrimary, isVarTok.
  destruct (inclusion highlightGlobals tok); cbn [andb orb].
  - destruct (kindIs (tKind tok) "variable") eqn:Hv.
    + rewrite (kindIs_variable_class _ Hv), andb_false_r. cbn [accumulatorVar orb].
      apply keys_pushRange.
    + cbn [orb]. destruct (kindIs (tKind tok) "parameter" && _);
        destruct (highlightClasses && kindIs (tKind tok) "class");
        cbn [accumulatorVar]; rewrite ?keys_pushRange; reflexivity.
  - destruct (highlightClasses && kindIs (tKind tok) "class");
      cbn [accumulatorVar]; rewrite ?keys_pushRange; reflexivity.
Qed.

Lemma classify_keys_dec tok a :
  JsMap.keys (accumulatorWithDec (classify highlightGlobals highlightClasses tok a))
  = if isParamTok highlightGlobals tok
    then addKey (tName tok) (JsMap.keys (accumulatorWithDec a))
    else JsMap.keys (accumulatorWithDec a).
Proof.
  unfold classify, classifyClass, classifyPrimary, isParamTok.
  destruct (inclusion highlightGlobals tok); cbn [andb].
  - destruct (kindIs (tKind tok) "variable") eqn:Hv.
    + rewrite (kindIs_variable_parameter _ Hv).
      destruct (highlightClasses && _); reflexivity.
    + destruct (kindIs (tKind tok) "parameter" && _);
        destruct (highlightClasses && kindIs (tKind tok) "class");
        cbn [accumulatorWithDec]; rewrite ?keys_markDeclared; reflexivity.
  - destruct (highlightClasses && _); reflexivity.
Qed.

Lemma classifyAll_keys_var toks : forall a,
  JsMap.keys (accumulatorVar (classifyAll highlightGlobals highlightClasses toks a))
  = fold_left (fun l k => addKey k l) (varNames highlightGlobals highlightClasses toks)
      (JsMap.keys (accumulatorVar a)).
Proof.
  unfold classifyAll, varNames.
  induction toks as [|tok toks IH]; intros a; [reflexivity |].
  cbn [fold_left filter]. rewrite IH, classify_keys_var.
  destruct (isVarTok highlightGlobals highlightClasses tok); reflexivity.
Qed.

Lemma classifyAll_keys_dec toks : forall a,
  JsMap.keys (accumulatorWithDec (classifyAll highlightGlobals highlightClasses toks a))
  = fold_left (fun l k => addKey k l) (paramNames highlightGlobals toks)
      (JsMap.keys (accumulatorWithDec a)).
Proof.
  unfold classifyAll, paramNames.
  induction toks as [|tok toks IH]; intros a; [reflexivity |].
  cbn [fold_left filter]. rewrite IH, classify_keys_dec.
  destruct (isParamTok highlightGlobals tok); reflexivity.
Qed.

Lemma reconcile_keys (d : JsMap.t bool) : forall p v,
  NoDup (JsMap.keys d) ->
  JsMap.keys (snd (fold_left reconcileEntry d (p, v)))
  = JsMap.keys v
    ++ filter (fun n => saysDeclared (JsMap.get n d) && negb (among (JsMap.keys v) n))
         (JsMap.keys d).
Proof.
  induction d as [|[k b] d IH]; intros p v Hnd.
  - cbn. now rewrite app_nil_r.
  - cbn [JsMap.keys map fst] in Hnd. fold (JsMap.keys d) in Hnd.
    inversion Hnd as [|? ? Hk Hnd']; subst.
    assert (Hother : forall n, In n (JsMap.keys d) ->
                       JsMap.get n ((k, b) :: d) = JsMap.get n d).
    { intros n Hin. cbn [JsMap.get]. destruct (String.eqb n k) eqn:Hn; [| reflexivity].
      apply String.eqb_eq in Hn. subst. tauto. }
    assert (Hneq : forall n, In n (JsMap.keys d) -> String.eqb n k = false).
    { intros n Hin. apply String.eqb_neq. intros ->. tauto. }
    cbn [fold_left JsMap.keys map fst filter]. fold (JsMap.keys d). fold (JsMap.keys v).
    cbn [JsMap.get]. rewrite String.eqb_refl. unfold reconcileEntry.
    destruct b; cbn [negb saysDeclared andb].
    + destruct (JsMap.get k v) as [vs|] eqn:Hg.
      * rewrite IH by assumption.
        assert (Hhas : among (JsMap.keys v) k = true).
        { rewrite <- has_among. unfold JsMap.has. now rewrite Hg. }
        rewrite keys_set_addKey, (addKey_among _ _ Hhas), Hhas. cbn [negb]. f_equal.
        apply filter_ext_in. intros n Hin. fold (JsMap.get n ((k, true) :: d)).
        rewrite (Hneq n Hin). reflexivity.
      * rewrite IH by assumption.
        assert (Hhas : among (JsMap.keys v) k = false).
        { rewrite <- has_among. unfold JsMap.has. now rewrite Hg. }
        rewrite keys_set_addKey. unfold addKey at 1. rewrite Hhas. cbn [negb].
        rewrite <- app_assoc. cbn [app]. do 2 f_equal.
        apply filter_ext_in. intros n Hin.
        rewrite (Hneq n Hin), among_addKey, (Hneq n Hin), orb_false_r. reflexivity.
    + rewrite IH by assumption. f_equal.
      apply filter_ext_in. intros n Hin. now rewrite (Hneq n Hin).
Qed.

Lemma classifyAll_NoDup_var toks : forall a,
  NoDup (JsMap.keys (accumulatorVar a)) ->
  NoDup (JsMap.keys (accumulatorVar (classifyAll highlightGlobals highlightClasses toks a))).
Proof.
  assert (Hpush : forall n r m, NoDup (JsMap.keys m) -> NoDup (JsMap.keys (pushRange n r m))).
  { intros n r m H. unfold pushRange. destruct (JsMap.get n m); now apply NoDup_keys_set. }
  unfold classifyAll. induction toks as [|tok toks IH]; intros a H; [exact H |].
  cbn [fold_left]. apply IH. unfold classify, classifyClass, classifyPrimary.
  destruct (inclusion highlightGlobals tok), (kindIs (tKind tok) "variable");
    try destruct (kindIs (tKind tok) "parameter" && _);
    destruct (highlightClasses && _);
    cbn [accumulatorVar]; auto.
Qed.

Lemma reconcile_NoDup (d : JsMap.t bool) : forall p v,
  NoDup (JsMap.keys v) -> NoDup (JsMap.keys (snd (fold_left reconcileEntry d (p, v)))).
Proof.
  induction d as [|[k b] d IH]; intros p v H; [exact H |].
  cbn [fold_left]. unfold reconcileEntry. destruct b; cbn [negb].
  - destruct (JsMap.get k v); apply IH; now apply NoDup_keys_set.
  - now apply IH.
Qed.

End KeyOrder.

(** X9. The keys of the returned map are distinct, and a [for ... of] on it
    meets them in this order: first the names with a variable-classified
    token, in the order of their first such token; then the names that are
    kept as parameters only (the language is "cpp", or a
    parameter-classified token of the name carries "declaration"), in the
    order of their first parameter-classified token. *)
Theorem key_order (E : Type) (legend : SemanticTokensLegend) (editor : TextEditor E)
  (highlightGlobals highlightClasses : bool) (data : list N) (toks : list Token) :
  tokensOf E legend editor data = Ok toks ->
  exists m,
    rangesByName E legend editor highlightGlobals highlightClasses data = Ok m
    /\ NoDup (JsMap.keys m)
    /\ JsMap.keys m
       = expectedKeys highlightGlobals highlightClasses (languageId editor) toks.
Proof.
  intros Htoks. rewrite rangesByName_tokens, Htoks. cbn [bind].
  eexists. split; [reflexivity |]. unfold finalize.
  set (a := classifyAll highlightGlobals highlightClasses toks emptyAcc).
  set (d := if String.eqb (languageId editor) "cpp"
            then forceDeclared (accumulatorWithDec a) else accumulatorWithDec a).
  assert (Hkeys : JsMap.keys d = JsMap.keys (accumulatorWithDec a)).
  { unfold d. destruct (String.eqb (languageId editor) "cpp"); auto using forceDeclared_keys. }
  assert (Hnd : NoDup (JsMap.keys d)).
  { rewrite Hkeys. apply classifyAll_NoDup_dec. constructor. }
  split.
  - apply reconcile_NoDup, classifyAll_NoDup_var. constructor.
  - rewrite reconcile_keys by exact Hnd. rewrite Hkeys. unfold a at 1 2 3.
    rewrite classifyAll_keys_var, classifyAll_keys_dec, !fold_addKey.
    cbn [emptyAcc accumulatorVar accumulatorWithDec JsMap.keys JsMap.empty map app among
         existsb negb].
    rewrite !filter_all. unfold expectedKeys. f_equal.
    apply filter_ext_in. intros n Hin. f_equal.
    assert (Hn : In n (JsMap.keys (accumulatorWithDec a))).
    { unfold a. rewrite classifyAll_keys_dec, fold_addKey.
      cbn [emptyAcc accumulatorWithDec JsMap.keys JsMap.empty map app among existsb negb].
      now rewrite filter_all. }
    apply has_true_keys in Hn. unfold JsMap.has in Hn.
    unfold d. unfold a in Hn |- *. rewrite classifyAll_dec in Hn.
    destruct (String.eqb (languageId editor) "cpp"); cbn [orb].
    + rewrite forceDeclared_get, classifyAll_dec.
      now destruct (extendDec (JsMap.get n (accumulatorWithDec emptyAcc))
                      (declFlags highlightGlobals n toks)).
    + rewrite classifyAll_dec.
      cbn [emptyAcc accumulatorWithDec JsMap.get JsMap.empty] in *.
      destruct (declFlags highlightGlobals n toks) as [|f fs] eqn:Hf; [discriminate |].
      cbn [extendDec saysDeclared]. rewrite <- Hf, existsb_declFlags, orb_false_r.
      now destruct (declaredIn highlightGlobals n toks).
Qed.

Lemma key_order_witness :
  let editor := totalEditor sampleText "python" in
  let data := [0; 3; 3; 1; 2;  1; 0; 2; 1; 2;  1; 0; 2; 0; 0;  1; 3; 3; 1; 0]%N in
  tokensOf unit fullLegend editor data
  = Ok [mkToken (mkRange 0 (Num 3) 0 (Num 6)) "xyz" (Some "parameter") ["declaration"];
        mkToken (mkRange 1 (Num 0) 1 (Num 2)) "ab" (Some "parameter") ["declaration"];
        mkToken (mkRange 2 (Num 0) 2 (Num 2)) "ab" (Some "variable") [];
        mkToken (mkRange 3 (Num 3) 3 (Num 6)) "xyz" (Some "parameter") []]
  /\ exists m, rangesByName unit fullLegend editor true false data = Ok m
               /\ JsMap.keys m = ["ab"; "xyz"].
Proof.
  intros editor data. split; [reflexivity |].
  destruct (key_order unit fullLegend editor true false data _ eq_refl)
    as (m & Hm & _ & Hkeys).
  exists m. split; [exact Hm | exact Hkeys].
Defined.

(** ** The entry of a name, in all cases *)

(** X13. When no [getText] throws the function returns, and the entry of
    every name in its map is: the variable-classified ranges of the name in
    stream order, followed by its parameter-classified ranges in stream
    order when there are some and the language is "cpp" or one of them
    carries "declaration"; no entry when that leaves no range. *)
Theorem entry_of_name (E : Type) (legend : SemanticTokensLegend) (editor : TextEditor E)
  (highlightGlobals highlightClasses : bool) (data : list N) (toks : list Token) :
  tokensOf E legend editor data = Ok toks ->
  exists m,
    rangesByName E legend editor highlightGlobals highlightClasses data = Ok m
    /\ forall n,
         JsMap.get n m
         = match paramRanges highlightGlobals n toks with
           | [] => nonEmpty (varRanges highlightGlobals highlightClasses n toks)
           | _ :: _ =>
               if String.eqb (languageId editor) "cpp" || declaredIn highlightGlobals n toks
               then Some (varRanges highlightGlobals highlightClasses n toks
                          ++ paramRanges highlightGlobals n toks)
               else nonEmpty (varRanges highlightGlobals highlightClasses n toks)
           end.
Proof.
  intros Htoks.
  destruct (rangesByName_get E legend editor highlightGlobals highlightClasses data toks Htoks)
    as (m & Hm & _ & Hget).
  exists m. split; [exact Hm |]. intros n. rewrite Hget. unfold expectedAt.
  now destruct (paramRanges highlightGlobals n toks).
Qed.

Lemma entry_of_name_witness :
  let editor := totalEditor sampleText "cpp" in
  let data := [0; 3; 3; 1; 0;  1; 3; 3; 0; 0;  1; 3; 3; 2; 0]%N in
  let r i := mkRange i (Num 3) i (Num 6) in
  tokensOf unit fullLegend editor data
  = Ok [mkToken (r 0%N) "xyz" (Some "parameter") [];
        mkToken (r 1%N) "xyz" (Some "variable") [];
        mkToken (r 2%N) "xyz" (Some "class") []]
  /\ exists m, rangesByName unit fullLegend editor false true data = Ok m
               /\ JsMap.get "xyz" m = Some [r 1%N; r 2%N; r 0%N]
               /\ JsMap.get "ab" m = None.
Proof.
  intros editor data r. split; [reflexivity |].
  destruct (entry_of_name unit fullLegend editor false true data _ eq_refl)
    as (m & Hm & Hget).
  exists m. split; [exact Hm |]. split; [exact (Hget "xyz") | exact (Hget "ab")].
Defined.

(** ** The flags of [accumulatorWithDec] *)

(** X14. An entry of [accumulatorWithDec] that is [true] stays [true] through
    all later tokens: line 95 writes [false] for a name that has no entry
    only, so that a declaration seen once is not lost to later occurrences
    without the modifier. *)
Theorem declared_flag_sticks (highlightGlobals highlightClasses : bool)
  (toks : list Token) (a : Accumulators) (n : string) :
  JsMap.get n (accumulatorWithDec a) = Some true ->
  JsMap.get n (accumulatorWithDec (classifyAll highlightGlobals highlightClasses toks a))
  = Some true.
Proof.
  intros H. rewrite classifyAll_dec, H.
  destruct (declFlags highlightGlobals n toks); [reflexivity |].
  cbn [extendDec]. now rewrite orb_true_r.
Qed.

Lemma declared_flag_sticks_witness :
  let a := classifyAll true false
             [mkToken exampleRange1 "xyz" (Some "parameter") ["declaration"]] emptyAcc in
  let later := [mkToken exampleRange2 "xyz" (Some "parameter") [];
                mkToken exampleRange3 "xyz" (Some "parameter") []] in
  JsMap.get "xyz" (accumulatorWithDec a) = Some true
  /\ JsMap.get "xyz" (accumulatorWithDec (classifyAll true false later a)) = Some true.
Proof.
  intros a later. split; [reflexivity |].
  exact (declared_flag_sticks true false later a "xyz" eq_refl).
Defined.

(** ** The non-null assertions of lines 132 and 134 *)

(** X15. When the loop of line 125 reaches an entry of [accumulatorWithDec],
    [accumulatorParam] still has the name of that entry: what
    [accumulatorParam.get(name)!] reads is never [undefined]. *)
Theorem param_entry_present (E : Type) (editor : TextEditor E)
  (highlightGlobals highlightClasses : bool) (toks : list Token)
  (d1 : JsMap.t bool) (name : string) (isDeclared : bool) (d2 : JsMap.t bool) :
  (if String.eqb (languageId editor) "cpp"
   then forceDeclared
          (accumulatorWithDec (classifyAll highlightGlobals highlightClasses toks emptyAcc))
   else accumulatorWithDec (classifyAll highlightGlobals highlightClasses toks emptyAcc))
  = d1 ++ (name, isDeclared) :: d2 ->
  exists rs,
    JsMap.get name
      (fst (reconcileUpTo d1 (classifyAll highlightGlobals highlightClasses toks emptyAcc)))
    = Some rs
    /\ rs = paramRanges highlightGlobals name toks
    /\ rs <> [].
Proof.
  intros Hd.
  pose proof (reconcile_get_defined E editor highlightGlobals highlightClasses toks
                d1 name isDeclared d2 Hd) as Hhas.
  cbv zeta in Hhas. unfold JsMap.has in Hhas.
  destruct (JsMap.get name
              (fst (reconcileUpTo d1
                      (classifyAll highlightGlobals highlightClasses toks emptyAcc))))
    as [rs|] eqn:Hg; [| discriminate].
  exists rs. split; [reflexivity |].
  assert (Hnot : ~ In name (JsMap.keys d1)).
  { assert (Hnd : NoDup (JsMap.keys (d1 ++ (name, isDeclared) :: d2))).
    { rewrite <- Hd. destruct (String.eqb (languageId editor) "cpp");
        [rewrite forceDeclared_keys |]; apply classifyAll_NoDup_dec; constructor. }
    unfold JsMap.keys in Hnd. rewrite map_app in Hnd.
    apply NoDup_remove_2 in Hnd. rewrite in_app_iff in Hnd. unfold JsMap.keys. tauto. }
  unfold reconcileUpTo in Hg. rewrite reconcile_param_other in Hg by exact Hnot.
  rewrite classifyAll_param in Hg.
  cbn [emptyAcc accumulatorParam JsMap.get JsMap.empty] in Hg.
  destruct (paramRanges highlightGlobals name toks) as [|p ps]; [discriminate |].
  cbn [extend app] in Hg. injection Hg as <-. split; [reflexivity | discriminate].
Qed.

Lemma param_entry_present_witness :
  let editor := totalEditor sampleText "python" in
  let toks := [mkToken exampleRange1 "ab" (Some "parameter") [];
               mkToken exampleRange2 "xyz" (Some "parameter") ["declaration"]] in
  accumulatorWithDec (classifyAll true false toks emptyAcc)
  = [("ab", false)] ++ ("xyz", true) :: []
  /\ exists rs,
       JsMap.get "xyz" (fst (reconcileUpTo [("ab", false)]
                               (classifyAll true false toks emptyAcc))) = Some rs
       /\ rs = [exampleRange2].
Proof.
  intros editor toks. split; [reflexivity |].
  destruct (param_entry_present unit editor true false toks [("ab", false)] "xyz" true []
              eq_refl) as (rs & Hg & Hrs & _).
  exists rs. split; [exact Hg | exact Hrs].
Defined.
